(** * working_time: WorkingTime and FreelancerTime document hooks

    A shallow embedding of
      working_time/working_time/doctype/working_time/working_time.py
      working_time/working_time/doctype/freelancer_time/freelancer_time.py

    Conventions of the embedding.
    - Python numbers that hold seconds, hours and rates are exact
      rationals ([Q]); [math.ceil] is [Qceiling].  The one float constant
      whose binary64 value matters, [MAX_HALF_DAY], is computed with
      primitive binary64 floats exactly as the module computes it.
    - A field of a document that may be unset is an [option]; Python
      truthiness ([if log.from_time:], [if log.duration:]) is written out
      by [truthy_str] and [truthy_num].
    - Time and date values are the strings the form sends.
    - A database table is a finite map from document names to documents.
    - The hooks that touch the database run in a state-and-exception
      monad over the tables; an exception keeps the state reached so far,
      as in Python. *)

From Stdlib Require Import ZArith QArith Qround Floats Lia Lqa.
From stdpp Require Import base option list strings gmap fin_maps.

Set Warnings "-inexact-float".

Local Open Scope Q_scope.

(** ** Python values *)

Module Py.

(** [bool(s)] for [s] a string or [None]. *)
Definition truthy_str (o : option string) : bool :=
  match o with
  | Some s => negb (String.eqb s "")
  | None => false
  end.

(** [bool(x)] for [x] a number or [None]. *)
Definition truthy_num (o : option Q) : bool :=
  match o with
  | Some x => negb (Qeq_bool x 0)
  | None => false
  end.

(** [s[:-n]]: everything but the last [n] characters (the empty string
    when [s] has at most [n] characters). *)
Definition drop_last (n : nat) (s : string) : string :=
  String.substring 0 (String.length s - n) s.

(** [f"{o}"] for [o] a string or [None]. *)
Definition fmt (o : option string) : string :=
  match o with
  | Some s => s
  | None => "None"
  end.

(** The string holding one line feed (character 10). *)
Definition newline : string :=
  String (Ascii.Ascii false true false true false false false false) "".

(** The exact value of a binary64 float, in lowest terms ([None] for
    infinities and NaN). *)
Definition float_value (f : float) : option Q :=
  match Prim2SF f with
  | S754_zero _ => Some 0
  | S754_finite s m e =>
      Some (Qred ((if s then inject_Z (Zneg m) else inject_Z (Zpos m))
                  * Qpower 2 e))
  | S754_infinity _ => None
  | S754_nan => None
  end.

(** [x > f] for an exact number [x] and a float [f]; Python compares the
    two values exactly. *)
Definition gt_float (x : Q) (f : float) : bool :=
  match float_value f with
  | Some q => negb (Qle_bool x q)
  | None => false
  end.

End Py.

(** ** Module constants (working_time.py, lines 12-16) *)

Definition HALF_DAY : float := 3.25%float.
Definition OVERTIME_FACTOR : float := 1.15%float.
Definition MAX_HALF_DAY : float :=
  (HALF_DAY * OVERTIME_FACTOR * 60 * 60)%float.
Definition FIVE_MINUTES : Q := 5 * 60.
Definition ONE_HOUR : Q := 60 * 60.

(** ** The rounding of create_timesheets *)

(** [math.ceil(duration / FIVE_MINUTES) * FIVE_MINUTES / ONE_HOUR] *)
Definition hours (duration : Q) : Q :=
  inject_Z (Qceiling (duration / FIVE_MINUTES)) * FIVE_MINUTES / ONE_HOUR.

(** [math.ceil(duration * float(billable[:-1]) / 100 / FIVE_MINUTES)
      * FIVE_MINUTES / ONE_HOUR], with [pct] the value of
    [float(billable[:-1])]. *)
Definition billing_hours (duration pct : Q) : Q :=
  inject_Z (Qceiling (duration * pct / 100 / FIVE_MINUTES))
  * FIVE_MINUTES / ONE_HOUR.

(** ** Documents *)

(** frappe.model.docstatus.DocStatus *)
Inductive DocStatus : Set := draft | submitted | cancelled.

Global Instance DocStatus_eq_dec : EqDecision DocStatus.
Proof. solve_decision. Defined.

(** A row of [WorkingTime.time_logs]. *)
Module TimeLog.
Record t : Type := mk {
  from_time : option string;
  to_time : option string;
  duration : option Q;
  is_break : bool;
  project : option string;
  billable : option string;
  key : option string;
  note : option string
}.

Definition set_from_time (v : option string) (l : t) : t :=
  mk v (to_time l) (duration l) (is_break l) (project l) (billable l)
     (key l) (note l).
Definition set_to_time (v : option string) (l : t) : t :=
  mk (from_time l) v (duration l) (is_break l) (project l) (billable l)
     (key l) (note l).
Definition set_duration (v : option Q) (l : t) : t :=
  mk (from_time l) (to_time l) v (is_break l) (project l) (billable l)
     (key l) (note l).
End TimeLog.

(** A row of [FreelancerTime.time_logs].

    Modelled from the spec: the child doctype is not declared in the
    sources; the fields [date], [duration], [project], [issue_key] and
    [note] are the ones create_timesheets reads, and [from_time] is listed
    for every time log by the data model (section 3) although
    create_timesheets never reads it. *)
Module FreelancerLog.
Record t : Type := mk {
  date : option string;
  from_time : option string;
  duration : option Q;
  project : option string;
  issue_key : option string;
  note : option string
}.
End FreelancerLog.

(** A row of [Timesheet.time_logs]: the inner dict of create_timesheets. *)
Module TimesheetDetail.
Record t : Type := mk {
  is_billable : Z;
  project : option string;
  activity_type : string;
  base_billing_rate : option Q;
  base_costing_rate : option Q;
  costing_rate : option Q;
  billing_rate : option Q;
  hours : Q;
  from_time : option string;
  billing_hours : Q;
  description : string;
  jira_issue_url : option string
}.
End TimesheetDetail.

(** The Timesheet document built by create_timesheets. *)
Module Timesheet.
Record t : Type := mk {
  time_logs : list TimesheetDetail.t;
  parent_project : option string;
  customer : option string;
  employee : option string;
  working_time : option string;
  freelancer_time : option string;
  docstatus : DocStatus
}.
End Timesheet.

(** The Attendance document built by create_attendance. *)
Module Attendance.
Record t : Type := mk {
  employee : string;
  status : string;
  attendance_date : string;
  working_time : string;
  docstatus : DocStatus
}.

Definition set_docstatus (v : DocStatus) (a : t) : t :=
  mk (employee a) (status a) (attendance_date a) (working_time a) v.
End Attendance.

(** ** The database and the hook monad *)

(** The two tables the hooks write, keyed by document name. *)
Record Db : Type := mkDb {
  attendances : gmap string Attendance.t;
  timesheets : gmap string Timesheet.t
}.

Definition set_attendances (f : gmap string Attendance.t -> gmap string Attendance.t)
    (db : Db) : Db :=
  mkDb (f (attendances db)) (timesheets db).
Definition set_timesheets (f : gmap string Timesheet.t -> gmap string Timesheet.t)
    (db : Db) : Db :=
  mkDb (attendances db) (f (timesheets db)).

Inductive exn : Set :=
  | ValidationError (msg : string)  (* frappe.throw *)
  | TypeError                       (* None[:-1], unpacking None *)
  | ValueError                      (* float of a malformed string *)
  | DuplicateEntryError             (* insert under a name already taken *)
  | ExternalError (msg : string).   (* a collaborator failed *)

Inductive result (A : Type) : Type :=
  | Ok (a : A)
  | Raise (e : exn).
Arguments Ok {A} a.
Arguments Raise {A} e.

Definition M (A : Type) : Type := Db -> result A * Db.

Definition ret {A} (a : A) : M A := fun db => (Ok a, db).
Definition raise {A} (e : exn) : M A := fun db => (Raise e, db).
Definition bind {A B} (m : M A) (k : A -> M B) : M B :=
  fun db =>
    match m db with
    | (Ok a, db') => k a db'
    | (Raise e, db') => (Raise e, db')
    end.
Definition lift {A} (r : result A) : M A := fun db => (r, db).
Definition gets {A} (f : Db -> A) : M A := fun db => (Ok (f db), db).
Definition modify (f : Db -> Db) : M unit := fun db => (Ok tt, f db).

Declare Scope hook_scope.
Delimit Scope hook_scope with hook.
Notation "'let*' x ':=' m 'in' k" := (bind m (fun x => k))
  (at level 10, x pattern, m at level 100, k at level 200) : hook_scope.
Notation "m >> k" := (bind m (fun _ => k))
  (at level 80, right associativity) : hook_scope.
Local Open Scope hook_scope.

(** [for x in l: body(x)] *)
Fixpoint for_each {A} (body : A -> M unit) (l : list A) : M unit :=
  match l with
  | [] => ret tt
  | x :: l' => body x >> for_each body l'
  end.

(** ** Collaborators outside the two modules

    The framework (frappe), the Python runtime's [float], and the jira
    helpers of this application.  Each is a parameter of the hooks. *)
Class Host : Type := {
  (** frappe.utils.time_diff_in_seconds(a, b): the seconds from b to a,
      for two times the framework can parse. *)
  time_diff_in_seconds : string -> string -> Q;
  (** float(s): [None] where Python raises ValueError, or yields an
      infinity or NaN, on which math.ceil raises. *)
  py_float : string -> option Q;
  (** frappe.get_value("Project", project, ["customer", "billing_rate",
      "jira_site"]): [None] when there is no such project. *)
  project_values : string -> option (option string * option Q * option string);
  (** frappe.get_value("Activity Cost", {"activity_type": "Default",
      "employee": employee}, "costing_rate") *)
  activity_cost : string -> option Q;
  (** frappe.get_value("Freelancer Rate", {"user": user, "from_date":
      ("<=", date)}, "rate", order_by="from_date DESC") *)
  freelancer_rate : string -> option string -> option Q;
  (** JiraClient(jira_site).get_issue_summary(key) *)
  get_issue_summary : option string -> string -> result string;
  (** working_time.jira_utils.get_description and get_jira_issue_url,
      imported by freelancer_time.py. *)
  jira_utils_get_description :
    option string -> option string -> option string -> result string;
  jira_utils_get_jira_issue_url : option string -> option string -> option string;
  (** The name the framework gives a new document of a table whose
      names are the given set. *)
  autoname : gset string -> string
}.

(** The framework never hands out a name already in use. *)
Definition autoname_fresh (H : Host) : Prop :=
  forall X : gset string, autoname X ∉ X.

(** ** working_time.py *)

Section ModuleFunctions.
Context {H : Host}.

(** get_costing_rate(employee) *)
Definition get_costing_rate (employee : string) : option Q :=
  activity_cost employee.

(** get_jira_issue_url(jira_site, key) *)
Definition get_jira_issue_url (jira_site key : option string) : option string :=
  if Py.truthy_str key
  then Some ("https://" +:+ Py.fmt jira_site +:+ "/browse/" +:+ Py.fmt key)
  else None.

(** get_description(jira_site, key, note) *)
Definition get_description (jira_site key note : option string) : result string :=
  if Py.truthy_str key then
    match get_issue_summary jira_site (Py.fmt key) with
    | Ok summary =>
        let description := summary +:+ " (" +:+ Py.fmt key +:+ ")" in
        if Py.truthy_str note
        then Ok (description +:+ ":" +:+ Py.newline +:+ Py.newline
                 +:+ Py.fmt note)
        else Ok description
    | Raise e => Raise e
    end
  else
    Ok (if Py.truthy_str note then Py.fmt note else "-").

(** frappe.get_doc({"doctype": "Timesheet", ...}).insert(): the document is
    stored as a draft under a new name. *)
Definition insert_timesheet (ts : Timesheet.t) : M string :=
  let* names := gets (fun db => dom (timesheets db)) in
  let name := autoname names in
  if decide (name ∈ names) then raise DuplicateEntryError
  else modify (set_timesheets (insert name ts)) >> ret name.

(** frappe.get_doc({"doctype": "Attendance", ...}) followed by save(): the
    document is stored as a draft under a new name. *)
Definition save_attendance (a : Attendance.t) : M string :=
  let* names := gets (fun db => dom (attendances db)) in
  let name := autoname names in
  if decide (name ∈ names) then raise DuplicateEntryError
  else modify (set_attendances (insert name a)) >> ret name.

(** attendance.submit() *)
Definition submit_attendance (name : string) : M unit :=
  modify (set_attendances (alter (Attendance.set_docstatus submitted) name)).

(** frappe.db.exists("Attendance", {"employee": e, "attendance_date": d}) *)
Definition attendance_matches (e d : string) (a : Attendance.t) : bool :=
  bool_decide (Attendance.employee a = e)
  && bool_decide (Attendance.attendance_date a = d).

Definition attendance_exists (e d : string) : M bool :=
  gets (fun db =>
          existsb (fun kv => attendance_matches e d kv.2)
                  (map_to_list (attendances db))).

End ModuleFunctions.

Module WorkingTime.

Record t : Type := mk {
  name : string;
  employee : string;
  date : string;
  time_logs : list TimeLog.t;
  break_time : Q;
  working_time : Q
}.

Definition set_time_logs (v : list TimeLog.t) (self : t) : t :=
  mk (name self) (employee self) (date self) v (break_time self)
     (working_time self).
Definition set_break_time (v : Q) (self : t) : t :=
  mk (name self) (employee self) (date self) (time_logs self) v
     (working_time self).
Definition set_working_time (v : Q) (self : t) : t :=
  mk (name self) (employee self) (date self) (time_logs self)
     (break_time self) v.

Section Methods.
Context {H : Host}.

(** [f"{time[:-2]}00"] when [time] is truthy, else [time] as it is. *)
Definition zero_seconds (time : option string) : option string :=
  if Py.truthy_str time
  then Some (Py.drop_last 2 (Py.fmt time) +:+ "00")
  else time.

(** The body of the loop of remove_seconds. *)
Definition remove_seconds_of_log (log : TimeLog.t) : TimeLog.t :=
  let log := TimeLog.set_from_time (zero_seconds (TimeLog.from_time log)) log in
  TimeLog.set_to_time (zero_seconds (TimeLog.to_time log)) log.

(** remove_seconds *)
Definition remove_seconds (self : t) : t :=
  set_time_logs (remove_seconds_of_log <$> time_logs self) self.

(** The body of the loop of set_to_times:
    [self.time_logs[i].to_time = self.time_logs[i + 1].from_time], written
    in place. *)
Definition set_to_time_at (self : t) (i : nat) : t :=
  match time_logs self !! (i + 1)%nat with
  | Some next =>
      set_time_logs
        (alter (TimeLog.set_to_time (TimeLog.from_time next)) i
               (time_logs self))
        self
  | None => self
  end.

(** set_to_times: [for i in range(0, len(self.time_logs) - 1)]. *)
Definition set_to_times (self : t) : t :=
  foldl set_to_time_at self (seq 0 (length (time_logs self) - 1)).

(** The first statement of the loop body of set_durations. *)
Definition compute_duration (log : TimeLog.t) : TimeLog.t :=
  if Py.truthy_str (TimeLog.from_time log) && Py.truthy_str (TimeLog.to_time log)
  then TimeLog.set_duration
         (Some (time_diff_in_seconds (Py.fmt (TimeLog.to_time log))
                                     (Py.fmt (TimeLog.from_time log))))
         log
  else log.

(** The second statement of the loop body of set_durations. *)
Definition accumulate (log : TimeLog.t) (self : t) : t :=
  match TimeLog.duration log with
  | Some d =>
      if Py.truthy_num (Some d) then
        if TimeLog.is_break log
        then set_break_time (break_time self + d) self
        else set_working_time (working_time self + d) self
      else self
  | None => self
  end.

(** The body of the loop of set_durations; the logs already visited are
    the ones collected in [time_logs] of the accumulator. *)
Definition visit_duration (acc : t) (log : TimeLog.t) : t :=
  let log' := compute_duration log in
  accumulate log' (set_time_logs (time_logs acc ++ [log']) acc).

(** set_durations *)
Definition set_durations (self : t) : t :=
  foldl visit_duration
        (set_time_logs [] (set_working_time 0 (set_break_time 0 self)))
        (time_logs self).

(** before_validate *)
Definition before_validate (self : t) : t :=
  set_durations (set_to_times (remove_seconds self)).

(** [log.duration and log.duration < 0] *)
Definition negative_duration (log : TimeLog.t) : bool :=
  match TimeLog.duration log with
  | Some d => Py.truthy_num (Some d) && negb (Qle_bool 0 d)
  | None => false
  end.

(** validate *)
Fixpoint validate_logs (logs : list TimeLog.t) : result unit :=
  match logs with
  | [] => Ok tt
  | log :: logs' =>
      if negative_duration log
      then Raise (ValidationError "Time logs must be continuous")
      else validate_logs logs'
  end.

Definition validate (self : t) : result unit :=
  validate_logs (time_logs self).

(** ["Present" if self.working_time > MAX_HALF_DAY else "Half Day"] *)
Definition attendance_status (working_time : Q) : string :=
  if Py.gt_float working_time MAX_HALF_DAY then "Present" else "Half Day".

(** create_attendance *)
Definition create_attendance (self : t) : M unit :=
  let* found := attendance_exists (employee self) (date self) in
  if negb found then
    let attendance :=
      Attendance.mk
        (employee self)
        (attendance_status (working_time self))
        (date self)
        (name self)
        draft in
    let* attendance_name := save_attendance attendance in
    submit_attendance attendance_name
  else ret tt.

(** The guard of the loop of create_timesheets:
    [if log.duration and log.project]. *)
Definition qualifies (log : TimeLog.t) : bool :=
  Py.truthy_num (TimeLog.duration log) && Py.truthy_str (TimeLog.project log).

(** [float(log.billable[:-1])] *)
Definition billable_percent (billable : option string) : result Q :=
  match billable with
  | None => Raise TypeError
  | Some s =>
      match py_float (Py.drop_last 1 s) with
      | Some pct => Ok pct
      | None => Raise ValueError
      end
  end.

(** The dict handed to frappe.get_doc by create_timesheets. *)
Definition timesheet_doc (self : t) (log : TimeLog.t)
    (costing_rate : option Q) (hours billing_hours : Q)
    (customer : option string) (billing_rate : option Q)
    (description : string) (jira_issue_url : option string) : Timesheet.t :=
  Timesheet.mk
    [TimesheetDetail.mk 1 (TimeLog.project log) "Default"
       billing_rate costing_rate costing_rate billing_rate
       hours (Some (date self)) billing_hours
       description jira_issue_url]
    (TimeLog.project log)
    customer
    (Some (employee self))
    (Some (name self))
    None
    draft.

(** The body of the loop of create_timesheets for a log that passed the
    guard, [duration] being [log.duration] and [project] [log.project]. *)
Definition create_timesheet (self : t) (log : TimeLog.t)
    (duration : Q) (project : string) : M unit :=
  let costing_rate := get_costing_rate (employee self) in
  let hours := hours duration in
  let* pct := lift (billable_percent (TimeLog.billable log)) in
  let billing_hours := billing_hours duration pct in
  match project_values project with
  | None => raise TypeError
  | Some (customer, billing_rate, jira_site) =>
      let* description :=
        lift (get_description jira_site (TimeLog.key log) (TimeLog.note log)) in
      let jira_issue_url := get_jira_issue_url jira_site (TimeLog.key log) in
      insert_timesheet
        (timesheet_doc self log costing_rate hours billing_hours
           customer billing_rate description jira_issue_url)
      >> ret tt
  end.

(** One iteration of the loop of create_timesheets, guard included. *)
Definition visit_log (self : t) (log : TimeLog.t) : M unit :=
  match TimeLog.duration log, TimeLog.project log with
  | Some duration, Some project =>
      if qualifies log
      then create_timesheet self log duration project
      else ret tt
  | _, _ => ret tt
  end.

(** create_timesheets *)
Definition create_timesheets (self : t) : M unit :=
  for_each (visit_log self) (time_logs self).

(** on_submit *)
Definition on_submit (self : t) : M unit :=
  create_attendance self >> create_timesheets self.

End Methods.
End WorkingTime.

(** ** freelancer_time.py *)

Module FreelancerTime.

Record t : Type := mk {
  name : string;
  owner : string;
  time_logs : list FreelancerLog.t
}.

Section Methods.
Context {H : Host}.

(** get_rate_and_currency(user, date) *)
Definition get_rate_and_currency (user : string) (date : option string) : option Q :=
  freelancer_rate user date.

(** The guard of the loop of create_timesheets:
    [if log.duration and log.project]. *)
Definition qualifies (log : FreelancerLog.t) : bool :=
  Py.truthy_num (FreelancerLog.duration log)
  && Py.truthy_str (FreelancerLog.project log).

(** The dict handed to frappe.get_doc by create_timesheets. *)
Definition timesheet_doc (self : t) (log : FreelancerLog.t)
    (costing_rate : option Q) (hours billing_hours : Q)
    (customer : option string) (billing_rate : option Q)
    (description : string) (jira_issue_url : option string) : Timesheet.t :=
  Timesheet.mk
    [TimesheetDetail.mk 1 (FreelancerLog.project log) "Default"
       billing_rate costing_rate costing_rate billing_rate
       hours (FreelancerLog.date log) billing_hours
       description jira_issue_url]
    (FreelancerLog.project log)
    customer
    None
    None
    (Some (name self))
    draft.

(** The body of the loop of create_timesheets for a log that passed the
    guard, [duration] being [log.duration] and [project] [log.project]. *)
Definition create_timesheet (self : t) (log : FreelancerLog.t)
    (duration : Q) (project : string) : M unit :=
  let costing_rate := get_rate_and_currency (owner self) (FreelancerLog.date log) in
  let hours := hours duration in
  let billing_hours := hours in
  match project_values project with
  | None => raise TypeError
  | Some (customer, billing_rate, jira_site) =>
      let* description :=
        lift (jira_utils_get_description jira_site
                (FreelancerLog.issue_key log) (FreelancerLog.note log)) in
      let jira_issue_url :=
        jira_utils_get_jira_issue_url jira_site (FreelancerLog.issue_key log) in
      insert_timesheet
        (timesheet_doc self log costing_rate hours billing_hours
           customer billing_rate description jira_issue_url)
      >> ret tt
  end.

(** One iteration of the loop of create_timesheets, guard included. *)
Definition visit_log (self : t) (log : FreelancerLog.t) : M unit :=
  match FreelancerLog.duration log, FreelancerLog.project log with
  | Some duration, Some project =>
      if qualifies log
      then create_timesheet self log duration project
      else ret tt
  | _, _ => ret tt
  end.

(** create_timesheets *)
Definition create_timesheets (self : t) : M unit :=
  for_each (visit_log self) (time_logs self).

(** The filters of the frappe.get_list call of delete_draft_timesheets. *)
Definition is_linked_draft (self : t) (ts : Timesheet.t) : bool :=
  bool_decide (Timesheet.freelancer_time ts = Some (name self))
  && bool_decide (Timesheet.docstatus ts = draft).

(** frappe.get_list("Timesheet", filters=...): the names of the rows that
    pass the filters, the user being allowed to read every Timesheet. *)
Definition get_list_timesheets (keep : Timesheet.t -> bool) : M (list string) :=
  gets (fun db =>
          (filter (fun kv => keep kv.2 = true) (map_to_list (timesheets db))).*1).

(** frappe.delete_doc("Timesheet", name) *)
Definition delete_timesheet (name : string) : M unit :=
  modify (set_timesheets (delete name)).

(** delete_draft_timesheets *)
Definition delete_draft_timesheets (self : t) : M unit :=
  let* found := get_list_timesheets (is_linked_draft self) in
  for_each delete_timesheet found.

(** on_submit *)
Definition on_submit (self : t) : M unit :=
  create_timesheets self.

(** on_cancel *)
Definition on_cancel (self : t) : M unit :=
  delete_draft_timesheets self.

End Methods.
End FreelancerTime.

(** ** The document lifecycle

    Modelled from the spec: the host that calls the hooks is the framework
    and is not part of the sources.  Section 6 of the spec gives the hook
    points before_validate, validate, on_submit and on_cancel; a hook that
    raises ends the pass, so the later hooks do not run. *)
Module Lifecycle.
Section Lifecycle.
Context {H : Host}.

Definition submit_working_time (doc : WorkingTime.t) : M WorkingTime.t :=
  let doc' := WorkingTime.before_validate doc in
  lift (WorkingTime.validate doc') >>
  WorkingTime.on_submit doc' >>
  ret doc'.

Definition submit_freelancer_time (doc : FreelancerTime.t) : M unit :=
  FreelancerTime.on_submit doc.

Definition cancel_freelancer_time (doc : FreelancerTime.t) : M unit :=
  FreelancerTime.on_cancel doc.

End Lifecycle.
End Lifecycle.

(** ** A concrete host, used to run the hooks on examples *)

Module Demo.

Definition digit (c : Ascii.ascii) : Z := Z.of_nat (Ascii.nat_of_ascii c) - 48.

(** The number written by the two characters of [s] at positions [i] and
    [i + 1]. *)
Definition two_digits (s : string) (i : nat) : Z :=
  match String.get i s, String.get (i + 1) s with
  | Some a, Some b => 10 * digit a + digit b
  | _, _ => 0
  end.

(** The seconds since midnight of a wall-clock time written HH:MM:SS. *)
Definition seconds_of_day (s : string) : Z :=
  3600 * two_digits s 0 + 60 * two_digits s 3 + two_digits s 6.

(** The value of a string of decimal digits. *)
Fixpoint digits_value (acc : Z) (s : string) : option Z :=
  match s with
  | EmptyString => Some acc
  | String c s' =>
      if (0 <=? digit c)%Z && (digit c <=? 9)%Z
      then digits_value (10 * acc + digit c) s'
      else None
  end.

Definition decimal (s : string) : option Q :=
  match s with
  | EmptyString => None
  | _ => inject_Z <$> digits_value 0 s
  end.

Fixpoint pad (n : nat) : string :=
  match n with
  | O => ""
  | S n' => "T" +:+ pad n'
  end.

(** A name longer than every name in use. *)
Definition longest (X : gset string) : nat :=
  foldr (fun s n => Nat.max (String.length s) n) O (elements X).

Definition fresh_name (X : gset string) : string := pad (S (longest X)).

Definition projects (project : string)
    : option (option string * option Q * option string) :=
  if String.eqb project "Website"
  then Some (Some "ACME", Some 120, Some "acme.atlassian.net")
  else None.

Definition host0 : Host := {|
  time_diff_in_seconds a b := inject_Z (seconds_of_day a - seconds_of_day b);
  py_float := decimal;
  project_values := projects;
  activity_cost _ := Some 45;
  freelancer_rate _ _ := Some 60;
  get_issue_summary _ _ := Ok "Fix bug";
  jira_utils_get_description _ _ _ := Ok "-";
  jira_utils_get_jira_issue_url _ _ := None;
  autoname := fresh_name
|}.

(** The same host, with the jira helpers of freelancer_time.py behaving as
    the ones defined in working_time.py. *)
Definition host : Host := {|
  time_diff_in_seconds := @time_diff_in_seconds host0;
  py_float := @py_float host0;
  project_values := @project_values host0;
  activity_cost := @activity_cost host0;
  freelancer_rate := @freelancer_rate host0;
  get_issue_summary := @get_issue_summary host0;
  jira_utils_get_description := @get_description host0;
  jira_utils_get_jira_issue_url := get_jira_issue_url;
  autoname := @autoname host0
|}.

Definition empty_db : Db := mkDb ∅ ∅.

Definition punch (from_time : string) (is_break : bool)
    (project : option string) : TimeLog.t :=
  TimeLog.mk (Some from_time) None None is_break project (Some "100%")
             None None.

(** The chaining example of the spec: punches at 09:00, 09:05:30 and 12:00. *)
Definition morning : WorkingTime.t :=
  WorkingTime.mk "WT-0001" "EMP-1" "2023-05-02"
    [punch "09:00:00" false (Some "Website");
     punch "09:05:30" false (Some "Website");
     punch "12:00:00" true None]
    0 0.

(** Punches out of order: the first log ends before it starts. *)
Definition out_of_order : WorkingTime.t :=
  WorkingTime.mk "WT-0002" "EMP-1" "2023-05-03"
    [punch "12:00:00" false (Some "Website");
     punch "09:00:00" false (Some "Website")]
    0 0.

(** A log with a duration of 20 minutes followed by a log without
    from_time. *)
Definition open_ended : WorkingTime.t :=
  WorkingTime.mk "WT-0003" "EMP-1" "2023-05-04"
    [TimeLog.mk (Some "09:00:00") (Some "09:30:00") (Some 1200) false
       (Some "Website") (Some "100%") None None;
     TimeLog.mk None None None false None (Some "100%") None None]
    0 0.

(** [morning] after before_validate. *)
Definition morning_normalised : WorkingTime.t :=
  @WorkingTime.before_validate host morning.

Definition consulting : FreelancerLog.t :=
  FreelancerLog.mk (Some "2023-05-02") (Some "2023-05-02 09:00:00")
    (Some 450) (Some "Website") (Some "ABC-1") (Some "done early").

(** A log with a negative duration. *)
Definition refund : FreelancerLog.t :=
  FreelancerLog.mk (Some "2023-05-03") None (Some (-300)) (Some "Website")
    None None.

Definition freelancer : FreelancerTime.t :=
  FreelancerTime.mk "FT-0001" "ann@example.com" [consulting].

Definition freelancer_refund : FreelancerTime.t :=
  FreelancerTime.mk "FT-0002" "ann@example.com" [refund].

(** The Timesheet that submitting [freelancer] creates. *)
Definition consulting_line : TimesheetDetail.t :=
  TimesheetDetail.mk 1 (Some "Website") "Default" (Some 120) (Some 60)
    (Some 60) (Some 120) (hours 450) (Some "2023-05-02") (hours 450)
    ("Fix bug (ABC-1):" +:+ Py.newline +:+ Py.newline +:+ "done early")
    (Some "https://acme.atlassian.net/browse/ABC-1").

Definition consulting_sheet : Timesheet.t :=
  Timesheet.mk [consulting_line] (Some "Website") (Some "ACME") None None
    (Some "FT-0001") draft.

(** The Timesheet that submitting [freelancer_refund] creates. *)
Definition refund_sheet : Timesheet.t :=
  Timesheet.mk
    [TimesheetDetail.mk 1 (Some "Website") "Default" (Some 120) (Some 60)
       (Some 60) (Some 120) (hours (-300)) (Some "2023-05-03")
       (hours (-300)) "-" None]
    (Some "Website") (Some "ACME") None None (Some "FT-0002") draft.

(** The first Timesheet that submitting [morning] creates. *)
Definition morning_line : TimesheetDetail.t :=
  TimesheetDetail.mk 1 (Some "Website") "Default" (Some 120) (Some 45)
    (Some 45) (Some 120) (hours 300) (Some "2023-05-02")
    (billing_hours 300 100) "-" None.

Definition morning_sheet : Timesheet.t :=
  Timesheet.mk [morning_line] (Some "Website") (Some "ACME") (Some "EMP-1")
    (Some "WT-0001") None draft.

(** Two Timesheets linked to [freelancer], one draft and one submitted,
    and a draft linked to another record. *)
Definition submitted_sheet : Timesheet.t :=
  Timesheet.mk [consulting_line] (Some "Website") (Some "ACME") None None
    (Some "FT-0001") submitted.

Definition other_sheet : Timesheet.t :=
  Timesheet.mk [consulting_line] (Some "Website") (Some "ACME") None None
    (Some "FT-0009") draft.

Definition billed_db : Db :=
  mkDb ∅ (<["TS-1" := consulting_sheet]>
          (<["TS-2" := submitted_sheet]> (<["TS-3" := other_sheet]> ∅))).

(** A database that already holds the Attendance of EMP-1 for
    2023-05-02. *)
Definition attended_db : Db :=
  mkDb (<["ATT-1" := Attendance.mk "EMP-1" "Half Day" "2023-05-02" "WT-0000"
                       submitted]> ∅)
       ∅.

End Demo.

(** ** Predicates used to state the properties *)

(** What a run of a create_timesheets loop leaves in the database: the
    rows [new], under names that were free, on top of what was there. *)
Definition adds_timesheets (new : list (string * Timesheet.t)) (db db' : Db) : Prop :=
  NoDup new.*1
  /\ (forall n, n ∈ new.*1 -> timesheets db !! n = None)
  /\ timesheets db' = list_to_map new ∪ timesheets db
  /\ attendances db' = attendances db.

(** [ts] is the Timesheet WorkingTime.create_timesheets builds for [log]. *)
Definition working_time_sheet {H : Host} (self : WorkingTime.t)
    (log : TimeLog.t) (ts : Timesheet.t) : Prop :=
  exists d p pct customer billing_rate jira_site description,
    TimeLog.duration log = Some d
    /\ TimeLog.project log = Some p
    /\ WorkingTime.billable_percent (TimeLog.billable log) = Ok pct
    /\ project_values p = Some (customer, billing_rate, jira_site)
    /\ get_description jira_site (TimeLog.key log) (TimeLog.note log)
       = Ok description
    /\ ts = WorkingTime.timesheet_doc self log
              (get_costing_rate (WorkingTime.employee self))
              (hours d) (billing_hours d pct) customer billing_rate
              description
              (get_jira_issue_url jira_site (TimeLog.key log)).

(** [ts] is the Timesheet FreelancerTime.create_timesheets builds for
    [log]. *)
Definition freelancer_time_sheet {H : Host} (self : FreelancerTime.t)
    (log : FreelancerLog.t) (ts : Timesheet.t) : Prop :=
  exists d p customer billing_rate jira_site description,
    FreelancerLog.duration log = Some d
    /\ FreelancerLog.project log = Some p
    /\ project_values p = Some (customer, billing_rate, jira_site)
    /\ jira_utils_get_description jira_site (FreelancerLog.issue_key log)
         (FreelancerLog.note log) = Ok description
    /\ ts = FreelancerTime.timesheet_doc self log
              (FreelancerTime.get_rate_and_currency
                 (FreelancerTime.owner self) (FreelancerLog.date log))
              (hours d) (hours d) customer billing_rate description
              (jira_utils_get_jira_issue_url jira_site
                 (FreelancerLog.issue_key log)).

(** The lookups the loop body of WorkingTime.create_timesheets makes for
    [log] all succeed. *)
Definition working_time_log_resolves {H : Host} (log : TimeLog.t) : Prop :=
  exists p pct customer billing_rate jira_site description,
    TimeLog.project log = Some p
    /\ WorkingTime.billable_percent (TimeLog.billable log) = Ok pct
    /\ project_values p = Some (customer, billing_rate, jira_site)
    /\ get_description jira_site (TimeLog.key log) (TimeLog.note log)
       = Ok description.

(** The lookups the loop body of FreelancerTime.create_timesheets makes
    for [log] all succeed. *)
Definition freelancer_log_resolves {H : Host} (log : FreelancerLog.t) : Prop :=
  exists p customer billing_rate jira_site description,
    FreelancerLog.project log = Some p
    /\ project_values p = Some (customer, billing_rate, jira_site)
    /\ jira_utils_get_description jira_site (FreelancerLog.issue_key log)
         (FreelancerLog.note log) = Ok description.

(** At most one Attendance per (employee, date). *)
Definition one_attendance_per_day (db : Db) : Prop :=
  forall n1 n2 a1 a2,
    attendances db !! n1 = Some a1 ->
    attendances db !! n2 = Some a2 ->
    Attendance.employee a1 = Attendance.employee a2 ->
    Attendance.attendance_date a1 = Attendance.attendance_date a2 ->
    n1 = n2.

(** Some Attendance of the database is for [employee] on [date]. *)
Definition has_attendance (db : Db) (employee date : string) : Prop :=
  exists n a,
    attendances db !! n = Some a
    /\ Attendance.employee a = employee
    /\ Attendance.attendance_date a = date.

(** The document create_attendance stores, once submitted. *)
Definition attendance_of (self : WorkingTime.t) : Attendance.t :=
  Attendance.mk (WorkingTime.employee self)
    (WorkingTime.attendance_status (WorkingTime.working_time self))
    (WorkingTime.date self) (WorkingTime.name self) submitted.

(** The seconds that the logs with [is_break = break] add up to. *)
Definition seconds_of (break : bool) (logs : list TimeLog.t) : Q :=
  foldr (fun log total =>
           if Bool.eqb (TimeLog.is_break log) break
           then default 0 (TimeLog.duration log) + total
           else total)
        0 logs.

(** The times of the log at a position after remove_seconds and
    set_to_times: [from_time] without its seconds, and [to_time] the
    from_time of the [next] log without its seconds, or, for the last log,
    its own to_time without its seconds. *)
Definition chained (log : TimeLog.t) (next : option TimeLog.t) : TimeLog.t :=
  TimeLog.set_to_time
    (match next with
     | Some next' => WorkingTime.zero_seconds (TimeLog.from_time next')
     | None => WorkingTime.zero_seconds (TimeLog.to_time log)
     end)
    (TimeLog.set_from_time (WorkingTime.zero_seconds (TimeLog.from_time log)) log).

(** The logs of a document after before_validate, by recursion on the
    logs: each log chained to the log that follows it. *)
Fixpoint chain_logs {H : Host} (logs : list TimeLog.t) : list TimeLog.t :=
  match logs with
  | [] => []
  | log :: rest =>
      WorkingTime.compute_duration (chained log (head rest)) :: chain_logs rest
  end.

(** More documents to run the hooks on. *)
Module Samples.

(** A day with a break, every log with its from_time and the last log
    with its to_time. *)
Definition full_day : WorkingTime.t :=
  WorkingTime.mk "WT-0004" "EMP-2" "2023-05-05"
    [Demo.punch "09:00:10" false (Some "Website");
     Demo.punch "12:00:00" true None;
     TimeLog.mk (Some "12:30:45") (Some "17:00:00") None false
       (Some "Website") (Some "100%") None None]
    0 0.

(** A database holding one Timesheet of another WorkingTime. *)
Definition old_sheet : Timesheet.t :=
  Timesheet.mk [Demo.morning_line] (Some "Website") (Some "ACME")
    (Some "EMP-7") (Some "WT-0000") None submitted.

Definition old_db : Db := mkDb ∅ (<["TS-0" := old_sheet]> ∅).

End Samples.

(** * Properties *)

(** ** The five-minute rounding *)

Section Rounding.











End Rounding.


(** ** The hook monad and the Timesheet table *)

Section Monad.

Lemma for_each_cons {A} (body : A -> M unit) x l db :
  for_each body (x :: l) db =
  match body x db with
  | (Ok _, db1) => for_each body l db1
  | (Raise e, db1) => (Raise e, db1)
  end.
Proof. reflexivity. Qed.

End Monad.

Section InsertTimesheet.
Context {H : Host}.

Lemma insert_timesheet_cases (ts : Timesheet.t) (db : Db) :
  (insert_timesheet ts db = (Raise DuplicateEntryError, db)
   /\ autoname (dom (timesheets db)) ∈ dom (timesheets db))
  \/ (exists n, timesheets db !! n = None
        /\ insert_timesheet ts db = (Ok n, set_timesheets (insert n ts) db)).
Proof.
  unfold insert_timesheet, bind, gets. simpl.
  destruct (decide (autoname (dom (timesheets db)) ∈ dom (timesheets db)))
    as [Hin|Hout].
  - by left.
  - right. exists (autoname (dom (timesheets db))). split; [|done].
    by apply not_elem_of_dom.
Qed.

Lemma insert_timesheet_fresh (ts : Timesheet.t) (db : Db) :
  autoname_fresh H ->
  exists n, timesheets db !! n = None
    /\ insert_timesheet ts db = (Ok n, set_timesheets (insert n ts) db).
Proof.
  intros Hfresh. destruct (insert_timesheet_cases ts db) as [[_ Hin]|Hok];
    [|done].
  by destruct (Hfresh (dom (timesheets db))).
Qed.

End InsertTimesheet.

(** A loop that, for each element passing a guard, may raise before
    touching the database or else inserts one timesheet. *)
Section TimesheetLoop.
Context {A : Type} (qual : A -> bool) (body : A -> M unit)
        (sheet : A -> Timesheet.t -> Prop).

Hypothesis body_step : forall x db r db1,
  body x db = (r, db1) ->
  (db1 = db /\ (r = Ok tt -> qual x = false))
  \/ (r = Ok tt /\ qual x = true
      /\ exists n ts, timesheets db !! n = None
           /\ db1 = set_timesheets (insert n ts) db /\ sheet x ts).

Lemma adds_timesheets_nil db : adds_timesheets [] db db.
Proof.
  repeat split; [constructor|by intros n ?%elem_of_nil|].
  simpl. by rewrite (left_id_L ∅ (∪)).
Qed.

Lemma adds_timesheets_cons n ts new db db' :
  timesheets db !! n = None ->
  adds_timesheets new (set_timesheets (insert n ts) db) db' ->
  adds_timesheets ((n, ts) :: new) db db'.
Proof.
  intros Hfree (Hnodup & Hnew & Htable & Hatt). simpl in *.
  assert (n ∉ new.*1) as Hn.
  { intros Hin. specialize (Hnew n Hin). by rewrite lookup_insert_eq in Hnew. }
  repeat split.
  - by constructor.
  - intros m [->|Hin]%elem_of_cons; [done|].
    specialize (Hnew m Hin). rewrite lookup_insert in Hnew.
    case_decide; [done|exact Hnew].
  - rewrite Htable. simpl. rewrite <- insert_union_l.
    by rewrite insert_union_r by by apply not_elem_of_list_to_map_1.
  - done.
Qed.

Lemma timesheet_loop (l : list A) : forall db r db',
  for_each body l db = (r, db') ->
  exists done new,
    done `prefix_of` filter (fun x => qual x = true) l
    /\ (r = Ok tt -> done = filter (fun x => qual x = true) l)
    /\ Forall2 sheet done new.*2
    /\ adds_timesheets new db db'.
Proof.
  induction l as [|x l IH]; intros db r db' Hrun.
  - injection Hrun as <- <-. exists [], []. split_and!; try done.
    apply adds_timesheets_nil.
  - rewrite for_each_cons in Hrun.
    destruct (body x db) as [r1 db1] eqn:Hbody.
    destruct (body_step _ _ _ _ Hbody) as [[-> Hr1]|(-> & Hq & n & ts & Hfree & -> & Hsheet)].
    + destruct r1 as [[]|e].
      * destruct (IH _ _ _ Hrun) as (done & new & Hpre & Hall & Hsheets & Hadds).
        exists done, new. rewrite filter_cons_False by (rewrite Hr1; done).
        done.
      * injection Hrun as <- <-. exists [], []. split_and!; try done.
        -- apply prefix_nil.
        -- apply adds_timesheets_nil.
    + destruct (IH _ _ _ Hrun) as (done & new & Hpre & Hall & Hsheets & Hadds).
      exists (x :: done), ((n, ts) :: new).
      rewrite filter_cons_True by done. split_and!.
      * by apply prefix_cons.
      * intros Hr. by rewrite Hall.
      * by constructor.
      * by apply adds_timesheets_cons.
Qed.

Lemma adds_timesheets_size new db db' :
  adds_timesheets new db db' ->
  size (timesheets db') = (size (timesheets db) + length new)%nat.
Proof.
  intros (Hnodup & Hnew & -> & _).
  rewrite map_size_disj_union.
  - rewrite map_size_list_to_map by done. lia.
  - apply map_disjoint_spec. intros n ts ts' Hin Hold.
    apply elem_of_list_to_map_2 in Hin.
    assert (n ∈ new.*1) as Hn by (apply list_elem_of_fmap; by exists (n, ts)).
    specialize (Hnew n Hn). congruence.
Qed.

Lemma timesheet_loop_new (l : list A) db r db' n ts :
  for_each body l db = (r, db') ->
  timesheets db' !! n = Some ts ->
  timesheets db !! n = None ->
  exists x, x ∈ l /\ qual x = true /\ sheet x ts.
Proof.
  intros Hrun Hnew Hold.
  destruct (timesheet_loop l _ _ _ Hrun)
    as (done & new & Hpre & _ & Hsheets & _ & _ & Htable & _).
  rewrite Htable in Hnew. apply lookup_union_Some_raw in Hnew.
  destruct Hnew as [Hin|[_ Hin]]; [|congruence].
  apply elem_of_list_to_map_2 in Hin.
  assert (ts ∈ new.*2) as Hts by (apply list_elem_of_fmap; by exists (n, ts)).
  apply list_elem_of_lookup in Hts as [i Hi].
  destruct (Forall2_lookup_r _ _ _ _ _ Hsheets Hi) as (x & Hx & Hsheet).
  assert (x ∈ filter (fun x => qual x = true) l) as Hf.
  { eapply elem_of_prefix; [|exact Hpre]. apply list_elem_of_lookup; eauto. }
  apply list_elem_of_filter in Hf as [? ?]. by exists x.
Qed.

End TimesheetLoop.

(** ** Timesheet creation *)

Section TimesheetCreation.
Context {H : Host}.

Lemma working_time_qualifies_inv (log : TimeLog.t) :
  WorkingTime.qualifies log = true ->
  exists d p, TimeLog.duration log = Some d /\ TimeLog.project log = Some p.
Proof.
  unfold WorkingTime.qualifies.
  destruct (TimeLog.duration log) as [d|], (TimeLog.project log) as [p|];
    simpl; rewrite ?andb_false_r; intros Hq; try discriminate.
  by exists d, p.
Qed.

Lemma freelancer_qualifies_inv (log : FreelancerLog.t) :
  FreelancerTime.qualifies log = true ->
  exists d p,
    FreelancerLog.duration log = Some d /\ FreelancerLog.project log = Some p.
Proof.
  unfold FreelancerTime.qualifies.
  destruct (FreelancerLog.duration log) as [d|],
           (FreelancerLog.project log) as [p|];
    simpl; rewrite ?andb_false_r; intros Hq; try discriminate.
  by exists d, p.
Qed.

Lemma working_time_visit_step (self : WorkingTime.t) log db r db1 :
  WorkingTime.visit_log self log db = (r, db1) ->
  (db1 = db /\ (r = Ok tt -> WorkingTime.qualifies log = false))
  \/ (r = Ok tt /\ WorkingTime.qualifies log = true
      /\ exists n ts, timesheets db !! n = None
           /\ db1 = set_timesheets (insert n ts) db
           /\ working_time_sheet self log ts).
Proof.
  unfold WorkingTime.visit_log.
  destruct (WorkingTime.qualifies log) eqn:Hq.
  2:{ destruct (TimeLog.duration log), (TimeLog.project log);
      intros [= <- <-]; by left. }
  destruct (working_time_qualifies_inv log Hq) as (d & p & Hd & Hp).
  rewrite Hd, Hp. unfold WorkingTime.create_timesheet, bind, lift, raise.
  destruct (WorkingTime.billable_percent (TimeLog.billable log))
    as [pct|e] eqn:Hpct; [|intros [= <- <-]; by left].
  destruct (project_values p) as [[[customer billing_rate] jira_site]|] eqn:Hproj;
    [|intros [= <- <-]; by left].
  destruct (get_description jira_site (TimeLog.key log) (TimeLog.note log))
    as [description|e] eqn:Hdesc; [|intros [= <- <-]; by left].
  match goal with
  | |- context [insert_timesheet ?doc db] =>
      destruct (insert_timesheet_cases doc db) as [[-> _]|(n & Hfree & ->)]
  end.
  - intros [= <- <-]. by left.
  - unfold ret. intros [= <- <-]. right. split_and!; [done..|].
    eexists n, _. split_and!; [done..|].
    by exists d, p, pct, customer, billing_rate, jira_site, description.
Qed.

Lemma freelancer_visit_step (self : FreelancerTime.t) log db r db1 :
  FreelancerTime.visit_log self log db = (r, db1) ->
  (db1 = db /\ (r = Ok tt -> FreelancerTime.qualifies log = false))
  \/ (r = Ok tt /\ FreelancerTime.qualifies log = true
      /\ exists n ts, timesheets db !! n = None
           /\ db1 = set_timesheets (insert n ts) db
           /\ freelancer_time_sheet self log ts).
Proof.
  unfold FreelancerTime.visit_log.
  destruct (FreelancerTime.qualifies log) eqn:Hq.
  2:{ destruct (FreelancerLog.duration log), (FreelancerLog.project log);
      intros [= <- <-]; by left. }
  destruct (freelancer_qualifies_inv log Hq) as (d & p & Hd & Hp).
  rewrite Hd, Hp. unfold FreelancerTime.create_timesheet, bind, lift, raise.
  destruct (project_values p) as [[[customer billing_rate] jira_site]|] eqn:Hproj;
    [|intros [= <- <-]; by left].
  destruct (jira_utils_get_description jira_site (FreelancerLog.issue_key log)
              (FreelancerLog.note log))
    as [description|e] eqn:Hdesc; [|intros [= <- <-]; by left].
  match goal with
  | |- context [insert_timesheet ?doc db] =>
      destruct (insert_timesheet_cases doc db) as [[-> _]|(n & Hfree & ->)]
  end.
  - intros [= <- <-]. by left.
  - unfold ret. intros [= <- <-]. right. split_and!; [done..|].
    eexists n, _. split_and!; [done..|].
    by exists d, p, customer, billing_rate, jira_site, description.
Qed.

(** With fresh names and successful lookups an iteration does not raise. *)
Lemma working_time_visit_ok (self : WorkingTime.t) log db :
  autoname_fresh H ->
  (WorkingTime.qualifies log = true -> working_time_log_resolves log) ->
  exists db1, WorkingTime.visit_log self log db = (Ok tt, db1).
Proof.
  intros Hfresh Hres. unfold WorkingTime.visit_log.
  destruct (WorkingTime.qualifies log) eqn:Hq.
  2:{ destruct (TimeLog.duration log), (TimeLog.project log); by eexists. }
  destruct (working_time_qualifies_inv log Hq) as (d & p & Hd & Hp).
  destruct (Hres eq_refl)
    as (p' & pct & customer & billing_rate & jira_site & description
        & Hp' & Hpct & Hproj & Hdesc).
  rewrite Hd, Hp. rewrite Hp in Hp'. injection Hp' as <-.
  unfold WorkingTime.create_timesheet, bind, lift.
  rewrite Hpct, Hproj, Hdesc.
  match goal with
  | |- context [insert_timesheet ?doc db] =>
      destruct (insert_timesheet_fresh doc db Hfresh) as (n & _ & ->)
  end.
  by eexists.
Qed.

Lemma freelancer_visit_ok (self : FreelancerTime.t) log db :
  autoname_fresh H ->
  (FreelancerTime.qualifies log = true -> freelancer_log_resolves log) ->
  exists db1, FreelancerTime.visit_log self log db = (Ok tt, db1).
Proof.
  intros Hfresh Hres. unfold FreelancerTime.visit_log.
  destruct (FreelancerTime.qualifies log) eqn:Hq.
  2:{ destruct (FreelancerLog.duration log), (FreelancerLog.project log);
      by eexists. }
  destruct (freelancer_qualifies_inv log Hq) as (d & p & Hd & Hp).
  destruct (Hres eq_refl)
    as (p' & customer & billing_rate & jira_site & description
        & Hp' & Hproj & Hdesc).
  rewrite Hd, Hp. rewrite Hp in Hp'. injection Hp' as <-.
  unfold FreelancerTime.create_timesheet, bind, lift.
  rewrite Hproj, Hdesc.
  match goal with
  | |- context [insert_timesheet ?doc db] =>
      destruct (insert_timesheet_fresh doc db Hfresh) as (n & _ & ->)
  end.
  by eexists.
Qed.

Lemma for_each_ok {A} (body : A -> M unit) (l : list A) :
  (forall x db, x ∈ l -> exists db1, body x db = (Ok tt, db1)) ->
  forall db, exists db', for_each body l db = (Ok tt, db').
Proof.
  induction l as [|x l IH]; intros Hbody db.
  - by eexists.
  - rewrite for_each_cons.
    destruct (Hbody x db) as [db1 ->]; [by left|].
    apply IH. intros y db2 Hy. apply Hbody. by right.
Qed.

End TimesheetCreation.

Section CreatedTimesheets.
Context {H : Host}.

Lemma working_time_created (self : WorkingTime.t) db n ts :
  timesheets (WorkingTime.create_timesheets self db).2 !! n = Some ts ->
  timesheets db !! n = None ->
  exists log, log ∈ WorkingTime.time_logs self
    /\ WorkingTime.qualifies log = true
    /\ working_time_sheet self log ts.
Proof.
  destruct (WorkingTime.create_timesheets self db) as [r db'] eqn:Hrun.
  simpl. intros Hnew Hold.
  exact (timesheet_loop_new WorkingTime.qualifies (WorkingTime.visit_log self)
           (working_time_sheet self) (working_time_visit_step self)
           _ _ _ _ _ _ Hrun Hnew Hold).
Qed.

Lemma freelancer_created (self : FreelancerTime.t) db n ts :
  timesheets (FreelancerTime.create_timesheets self db).2 !! n = Some ts ->
  timesheets db !! n = None ->
  exists log, log ∈ FreelancerTime.time_logs self
    /\ FreelancerTime.qualifies log = true
    /\ freelancer_time_sheet self log ts.
Proof.
  destruct (FreelancerTime.create_timesheets self db) as [r db'] eqn:Hrun.
  simpl. intros Hnew Hold.
  exact (timesheet_loop_new FreelancerTime.qualifies
           (FreelancerTime.visit_log self) (freelancer_time_sheet self)
           (freelancer_visit_step self) _ _ _ _ _ _ Hrun Hnew Hold).
Qed.

Lemma working_time_create_timesheets_ok (self : WorkingTime.t) db :
  autoname_fresh H ->
  (forall log, log ∈ WorkingTime.time_logs self ->
     WorkingTime.qualifies log = true -> working_time_log_resolves log) ->
  exists new db',
    WorkingTime.create_timesheets self db = (Ok tt, db')
    /\ adds_timesheets new db db'
    /\ Forall2 (working_time_sheet self)
         (filter (fun log => WorkingTime.qualifies log = true)
                 (WorkingTime.time_logs self))
         new.*2.
Proof.
  intros Hfresh Hres.
  destruct (for_each_ok (WorkingTime.visit_log self) (WorkingTime.time_logs self))
    with (db := db) as [db' Hrun].
  { intros log db0 Hin. apply working_time_visit_ok; [done|]. by apply Hres. }
  destruct (timesheet_loop WorkingTime.qualifies (WorkingTime.visit_log self)
              (working_time_sheet self) (working_time_visit_step self)
              _ _ _ _ Hrun)
    as (done & new & _ & Hall & Hsheets & Hadds).
  exists new, db'. rewrite <- (Hall eq_refl). done.
Qed.

Lemma freelancer_create_timesheets_ok (self : FreelancerTime.t) db :
  autoname_fresh H ->
  (forall log, log ∈ FreelancerTime.time_logs self ->
     FreelancerTime.qualifies log = true -> freelancer_log_resolves log) ->
  exists new db',
    FreelancerTime.create_timesheets self db = (Ok tt, db')
    /\ adds_timesheets new db db'
    /\ Forall2 (freelancer_time_sheet self)
         (filter (fun log => FreelancerTime.qualifies log = true)
                 (FreelancerTime.time_logs self))
         new.*2.
Proof.
  intros Hfresh Hres.
  destruct (for_each_ok (FreelancerTime.visit_log self)
              (FreelancerTime.time_logs self))
    with (db := db) as [db' Hrun].
  { intros log db0 Hin. apply freelancer_visit_ok; [done|]. by apply Hres. }
  destruct (timesheet_loop FreelancerTime.qualifies
              (FreelancerTime.visit_log self) (freelancer_time_sheet self)
              (freelancer_visit_step self) _ _ _ _ Hrun)
    as (done & new & _ & Hall & Hsheets & Hadds).
  exists new, db'. rewrite <- (Hall eq_refl). done.
Qed.

Lemma working_time_sheet_lines (self : WorkingTime.t) log ts :
  working_time_sheet self log ts ->
  exists d pct line,
    TimeLog.duration log = Some d
    /\ WorkingTime.billable_percent (TimeLog.billable log) = Ok pct
    /\ Timesheet.time_logs ts = [line]
    /\ TimesheetDetail.hours line = hours d
    /\ TimesheetDetail.billing_hours line = billing_hours d pct
    /\ TimesheetDetail.from_time line = Some (WorkingTime.date self).
Proof.
  intros (d & p & pct & customer & rate & site & description
          & Hd & _ & Hpct & _ & _ & ->).
  by eexists d, pct, _.
Qed.

Lemma freelancer_sheet_lines (self : FreelancerTime.t) log ts :
  freelancer_time_sheet self log ts ->
  exists d line,
    FreelancerLog.duration log = Some d
    /\ Timesheet.time_logs ts = [line]
    /\ TimesheetDetail.hours line = hours d
    /\ TimesheetDetail.billing_hours line = hours d
    /\ TimesheetDetail.from_time line = FreelancerLog.date log.
Proof.
  intros (d & p & customer & rate & site & description & Hd & _ & _ & _ & ->).
  by eexists d, _.
Qed.

End CreatedTimesheets.


(** ** Attendance *)

Section AttendanceCreation.
Context {H : Host}.

Lemma attendance_matches_spec (e d : string) (a : Attendance.t) :
  attendance_matches e d a = true
  <-> Attendance.employee a = e /\ Attendance.attendance_date a = d.
Proof.
  unfold attendance_matches.
  rewrite andb_true_iff, !bool_decide_eq_true. done.
Qed.

Lemma attendance_exists_spec (e d : string) (db : Db) :
  exists found,
    attendance_exists e d db = (Ok found, db)
    /\ (found = true <-> has_attendance db e d).
Proof.
  unfold attendance_exists, gets. eexists. split; [done|].
  rewrite existsb_exists. split.
  - intros ([n a] & Hin & Hm). exists n, a.
    apply list_elem_of_In, elem_of_map_to_list in Hin.
    apply attendance_matches_spec in Hm as [He Hd]. by split_and!.
  - intros (n & a & Hlook & He & Hd). exists (n, a). split.
    + by apply list_elem_of_In, elem_of_map_to_list.
    + by apply attendance_matches_spec.
Qed.

Lemma save_attendance_cases (a : Attendance.t) (db : Db) :
  (save_attendance a db = (Raise DuplicateEntryError, db)
   /\ autoname (dom (attendances db)) ∈ dom (attendances db))
  \/ (exists n, attendances db !! n = None
        /\ save_attendance a db = (Ok n, set_attendances (insert n a) db)).
Proof.
  unfold save_attendance, bind, gets. simpl.
  destruct (decide (autoname (dom (attendances db)) ∈ dom (attendances db)))
    as [Hin|Hout].
  - by left.
  - right. exists (autoname (dom (attendances db))). split; [|done].
    by apply not_elem_of_dom.
Qed.

Lemma create_attendance_cases (self : WorkingTime.t) (db : Db) :
  (has_attendance db (WorkingTime.employee self) (WorkingTime.date self)
   /\ WorkingTime.create_attendance self db = (Ok tt, db))
  \/ (~ has_attendance db (WorkingTime.employee self) (WorkingTime.date self)
      /\ WorkingTime.create_attendance self db = (Raise DuplicateEntryError, db)
      /\ autoname (dom (attendances db)) ∈ dom (attendances db))
  \/ (~ has_attendance db (WorkingTime.employee self) (WorkingTime.date self)
      /\ exists n,
           attendances db !! n = None
           /\ WorkingTime.create_attendance self db =
              (Ok tt, set_attendances
                        (fun _ => <[n := attendance_of self]> (attendances db))
                        db)).
Proof.
  destruct (attendance_exists_spec (WorkingTime.employee self)
              (WorkingTime.date self) db) as (found & Hrun & Hfound).
  assert (WorkingTime.create_attendance self db =
          if found then (Ok tt, db)
          else bind (save_attendance
                       (Attendance.set_docstatus draft (attendance_of self)))
                    submit_attendance db) as ->.
  { unfold WorkingTime.create_attendance. unfold bind at 1. rewrite Hrun.
    by destruct found. }
  destruct found.
  - left. split; [by apply Hfound|done].
  - assert (~ has_attendance db (WorkingTime.employee self)
                (WorkingTime.date self)) as Hnone
      by (intros Hhas; by apply Hfound in Hhas).
    right. unfold bind.
    destruct (save_attendance_cases
                (Attendance.set_docstatus draft (attendance_of self)) db)
      as [[-> Hin]|(n & Hfree & ->)].
    + by left.
    + right. split; [done|]. exists n. split; [done|].
      unfold submit_attendance, modify, set_attendances. simpl.
      do 2 f_equal. apply map_eq. intros m.
      destruct (decide (n = m)) as [->|Hne].
      * by rewrite lookup_alter_eq, !lookup_insert_eq.
      * by rewrite lookup_alter_ne, !lookup_insert_ne.
Qed.

Lemma create_attendance_fresh (self : WorkingTime.t) (db : Db) :
  autoname_fresh H ->
  ~ has_attendance db (WorkingTime.employee self) (WorkingTime.date self) ->
  exists n,
    attendances db !! n = None
    /\ WorkingTime.create_attendance self db =
       (Ok tt, set_attendances
                 (fun _ => <[n := attendance_of self]> (attendances db)) db).
Proof.
  intros Hfresh Hnone.
  destruct (create_attendance_cases self db)
    as [[Hhas _]|[(_ & _ & Hin)|(_ & Hok)]]; [done| |done].
  by destruct (Hfresh (dom (attendances db))).
Qed.

Lemma create_attendance_timesheets (self : WorkingTime.t) (db : Db) :
  timesheets (WorkingTime.create_attendance self db).2 = timesheets db.
Proof.
  destruct (create_attendance_cases self db)
    as [[_ ->]|[(_ & -> & _)|(_ & n & _ & ->)]]; done.
Qed.

Lemma create_attendance_invariant (self : WorkingTime.t) (db : Db) :
  one_attendance_per_day db ->
  one_attendance_per_day (WorkingTime.create_attendance self db).2.
Proof.
  intros Hinv.
  destruct (create_attendance_cases self db)
    as [[_ ->]|[(_ & -> & _)|(Hnone & n & Hfree & ->)]]; [done..|].
  intros n1 n2 a1 a2. simpl.
  destruct (decide (n1 = n)) as [->|Hn1], (decide (n2 = n)) as [->|Hn2];
    rewrite ?lookup_insert_eq, ?lookup_insert_ne by done;
    intros L1 L2 He Hd; simplify_eq; simpl in *.
  - done.
  - destruct Hnone. by exists n2, a2.
  - destruct Hnone. by exists n1, a1.
  - by eapply Hinv.
Qed.

Lemma create_attendance_existing (self : WorkingTime.t) (db : Db) :
  has_attendance db (WorkingTime.employee self) (WorkingTime.date self) ->
  WorkingTime.create_attendance self db = (Ok tt, db).
Proof.
  intros Hhas.
  destruct (create_attendance_cases self db)
    as [[_ ->]|[(Hnone & _)|(Hnone & _)]]; done.
Qed.

Lemma create_timesheets_attendances (self : WorkingTime.t) (db : Db) :
  attendances (WorkingTime.create_timesheets self db).2 = attendances db.
Proof.
  destruct (WorkingTime.create_timesheets self db) as [r db'] eqn:Hrun.
  destruct (timesheet_loop WorkingTime.qualifies (WorkingTime.visit_log self)
              (working_time_sheet self) (working_time_visit_step self)
              _ _ _ _ Hrun)
    as (done & new & _ & _ & _ & _ & _ & _ & Hatt).
  done.
Qed.

Lemma on_submit_attendances (self : WorkingTime.t) (db : Db) :
  attendances (WorkingTime.on_submit self db).2
  = attendances (WorkingTime.create_attendance self db).2.
Proof.
  unfold WorkingTime.on_submit, bind.
  destruct (WorkingTime.create_attendance self db) as [[[]|e] db1]; [|done].
  apply create_timesheets_attendances.
Qed.

End AttendanceCreation.

Section AttendanceStatus.

(** 3.25 * 1.15 * 60 * 60, evaluated in binary64, is exactly 13455. *)
Lemma MAX_HALF_DAY_value : Py.float_value MAX_HALF_DAY = Some 13455.
Proof. vm_compute. reflexivity. Qed.

Lemma gt_MAX_HALF_DAY (w : Q) :
  Py.gt_float w MAX_HALF_DAY = negb (Qle_bool w 13455).
Proof. unfold Py.gt_float. by rewrite MAX_HALF_DAY_value. Qed.

Lemma attendance_status_present (w : Q) :
  WorkingTime.attendance_status w = "Present" <-> 13455 < w.
Proof.
  unfold WorkingTime.attendance_status. rewrite gt_MAX_HALF_DAY.
  destruct (Qle_bool w 13455) eqn:Hle; simpl.
  - apply Qle_bool_iff in Hle. split; [done|].
    intros Hlt. by destruct (Qlt_not_le _ _ Hlt).
  - split; [intros _|done]. apply Qnot_le_lt. intros Hle'.
    apply Qle_bool_iff in Hle'. congruence.
Qed.

Lemma attendance_status_half_day (w : Q) :
  WorkingTime.attendance_status w = "Half Day" <-> w <= 13455.
Proof.
  unfold WorkingTime.attendance_status. rewrite gt_MAX_HALF_DAY.
  destruct (Qle_bool w 13455) eqn:Hle; simpl.
  - apply Qle_bool_iff in Hle. done.
  - split; [done|]. intros Hle'. apply Qle_bool_iff in Hle'. congruence.
Qed.

End AttendanceStatus.

(** C3.  [MAX_HALF_DAY], 3.25 * 1.15 * 60 * 60 as the module computes it,
    is exactly 13455 seconds.  When no Attendance exists for the employee
    and the date, create_attendance stores one Attendance, submitted, whose
    status is "Present" exactly when [working_time > 13455] and "Half Day"
    otherwise; 13455 seconds give "Half Day" and 13456 seconds give
    "Present". *)
Theorem attendance_status_threshold {H : Host} (self : WorkingTime.t) (db : Db) :
  autoname_fresh H ->
  ~ has_attendance db (WorkingTime.employee self) (WorkingTime.date self) ->
  Py.float_value MAX_HALF_DAY = Some 13455
  /\ (exists n a,
        attendances db !! n = None
        /\ WorkingTime.create_attendance self db =
           (Ok tt, set_attendances (fun _ => <[n := a]> (attendances db)) db)
        /\ Attendance.employee a = WorkingTime.employee self
        /\ Attendance.attendance_date a = WorkingTime.date self
        /\ Attendance.docstatus a = submitted
        /\ (Attendance.status a = "Present"
            <-> 13455 < WorkingTime.working_time self)
        /\ (Attendance.status a = "Half Day"
            <-> WorkingTime.working_time self <= 13455))
  /\ WorkingTime.attendance_status 13455 = "Half Day"
  /\ WorkingTime.attendance_status 13456 = "Present".
Proof.
  intros Hfresh Hnone. split_and!.
  - apply MAX_HALF_DAY_value.
  - destruct (create_attendance_fresh self db Hfresh Hnone) as (n & Hfree & Hrun).
    exists n, (attendance_of self). split_and!; try done.
    + apply attendance_status_present.
    + apply attendance_status_half_day.
  - by apply attendance_status_half_day.
  - by apply attendance_status_present.
Qed.

(** ** Normalisation of the time logs *)

Section Normalisation.
Context {H : Host}.

(** The state of set_to_times after [k] iterations. *)
Lemma set_to_times_prefix (self : WorkingTime.t) (k : nat) :
  (k <= length (WorkingTime.time_logs self) - 1)%nat ->
  let st := foldl WorkingTime.set_to_time_at self (seq 0 k) in
  WorkingTime.name st = WorkingTime.name self
  /\ WorkingTime.employee st = WorkingTime.employee self
  /\ WorkingTime.date st = WorkingTime.date self
  /\ WorkingTime.break_time st = WorkingTime.break_time self
  /\ WorkingTime.working_time st = WorkingTime.working_time self
  /\ forall i,
       WorkingTime.time_logs st !! i =
       if decide (i < k)%nat
       then match WorkingTime.time_logs self !! (i + 1)%nat with
            | Some next =>
                TimeLog.set_to_time (TimeLog.from_time next)
                  <$> WorkingTime.time_logs self !! i
            | None => WorkingTime.time_logs self !! i
            end
       else WorkingTime.time_logs self !! i.
Proof.
  induction k as [|k IH]; intros Hk st.
  - subst st. simpl. split_and!; try done.
  - destruct IH as (Hn & He & Hd & Hb & Hw & Hlogs); [lia|].
    subst st. rewrite seq_S, foldl_snoc. simpl.
    set (st := foldl _ self (seq 0 k)) in *.
    unfold WorkingTime.set_to_time_at.
    assert (is_Some (WorkingTime.time_logs self !! (k + 1)%nat)) as [next Hnext]
      by (apply lookup_lt_is_Some; lia).
    rewrite (Hlogs (k + 1)%nat). rewrite decide_False by lia. rewrite Hnext.
    simpl. split_and!; try done.
    intros i. destruct (decide (i = k)) as [->|Hne].
    + rewrite list_lookup_alter_eq, Hlogs, decide_False by lia.
      rewrite decide_True by lia. by rewrite Hnext.
    + rewrite list_lookup_alter_ne by done. rewrite Hlogs.
      destruct (decide (i < k)%nat), (decide (i < S k)%nat); try lia; done.
Qed.


Lemma set_to_times_spec (self : WorkingTime.t) :
  let st := WorkingTime.set_to_times self in
  WorkingTime.name st = WorkingTime.name self
  /\ WorkingTime.employee st = WorkingTime.employee self
  /\ WorkingTime.date st = WorkingTime.date self
  /\ forall i,
       WorkingTime.time_logs st !! i =
       match WorkingTime.time_logs self !! (i + 1)%nat with
       | Some next =>
           TimeLog.set_to_time (TimeLog.from_time next)
             <$> WorkingTime.time_logs self !! i
       | None => WorkingTime.time_logs self !! i
       end.
Proof.
  destruct (set_to_times_prefix self (length (WorkingTime.time_logs self) - 1))
    as (Hn & He & Hd & _ & _ & Hlogs); [done|].
  unfold WorkingTime.set_to_times. split_and!; try done.
  intros i. rewrite Hlogs. case_decide as Hi; [done|].
  rewrite (lookup_ge_None_2 _ (i + 1)%nat) by lia. done.
Qed.

(** The state of set_durations after the logs [l], from the state [acc]. *)
Lemma set_durations_loop (l : list TimeLog.t) : forall acc : WorkingTime.t,
  let st := foldl WorkingTime.visit_duration acc l in
  WorkingTime.name st = WorkingTime.name acc
  /\ WorkingTime.employee st = WorkingTime.employee acc
  /\ WorkingTime.date st = WorkingTime.date acc
  /\ WorkingTime.time_logs st
     = WorkingTime.time_logs acc ++ (WorkingTime.compute_duration <$> l)
  /\ WorkingTime.working_time st
     == WorkingTime.working_time acc
        + seconds_of false (WorkingTime.compute_duration <$> l)
  /\ WorkingTime.break_time st
     == WorkingTime.break_time acc
        + seconds_of true (WorkingTime.compute_duration <$> l).
Proof.
  induction l as [|log l IH]; intros acc st.
  - subst st. simpl. rewrite app_nil_r. split_and!; try done; ring.
  - subst st. simpl.
    set (log' := WorkingTime.compute_duration log).
    set (acc' := WorkingTime.visit_duration acc log).
    destruct (IH acc') as (Hn & He & Hd & Hlogs & Hw & Hb).
    assert (WorkingTime.name acc' = WorkingTime.name acc
            /\ WorkingTime.employee acc' = WorkingTime.employee acc
            /\ WorkingTime.date acc' = WorkingTime.date acc
            /\ WorkingTime.time_logs acc' = WorkingTime.time_logs acc ++ [log']
            /\ WorkingTime.working_time acc'
               == WorkingTime.working_time acc
                  + (if Bool.eqb (TimeLog.is_break log') false
                     then default 0 (TimeLog.duration log') else 0)
            /\ WorkingTime.break_time acc'
               == WorkingTime.break_time acc
                  + (if Bool.eqb (TimeLog.is_break log') true
                     then default 0 (TimeLog.duration log') else 0))
      as (Hn' & He' & Hd' & Hlogs' & Hw' & Hb').
    { subst acc'. unfold WorkingTime.visit_duration, WorkingTime.accumulate.
      fold log'.
      destruct (TimeLog.duration log') as [d|]; simpl.
      - destruct (Qeq_bool d 0) eqn:Hz; simpl.
        + apply Qeq_bool_iff in Hz.
          split_and!; try done; destruct (TimeLog.is_break log'); simpl;
            rewrite ?Hz; lra.
        + destruct (TimeLog.is_break log'); simpl; split_and!; try done; ring.
      - split_and!; try done; destruct (TimeLog.is_break log'); simpl; ring. }
    rewrite Hn, He, Hd, Hlogs, Hw, Hb, Hn', He', Hd', Hlogs', Hw', Hb'.
    rewrite <- app_assoc. split_and!; try done.
    + destruct (Bool.eqb (TimeLog.is_break log') false).
      * by rewrite Qplus_assoc.
      * by rewrite Qplus_0_r.
    + destruct (Bool.eqb (TimeLog.is_break log') true).
      * by rewrite Qplus_assoc.
      * by rewrite Qplus_0_r.
Qed.

Lemma set_durations_spec (self : WorkingTime.t) :
  let st := WorkingTime.set_durations self in
  WorkingTime.name st = WorkingTime.name self
  /\ WorkingTime.employee st = WorkingTime.employee self
  /\ WorkingTime.date st = WorkingTime.date self
  /\ WorkingTime.time_logs st
     = WorkingTime.compute_duration <$> WorkingTime.time_logs self
  /\ WorkingTime.working_time st == seconds_of false (WorkingTime.time_logs st)
  /\ WorkingTime.break_time st == seconds_of true (WorkingTime.time_logs st).
Proof.
  unfold WorkingTime.set_durations.
  match goal with
  | |- context [foldl _ ?acc _] =>
      destruct (set_durations_loop (WorkingTime.time_logs self) acc)
        as (Hn & He & Hd & Hlogs & Hw & Hb)
  end.
  simpl in *. rewrite Hlogs. split_and!; try done.
  - rewrite Hw. ring.
  - rewrite Hb. ring.
Qed.

Lemma before_validate_spec (doc : WorkingTime.t) :
  let doc' := WorkingTime.before_validate doc in
  WorkingTime.name doc' = WorkingTime.name doc
  /\ WorkingTime.employee doc' = WorkingTime.employee doc
  /\ WorkingTime.date doc' = WorkingTime.date doc
  /\ WorkingTime.working_time doc'
     == seconds_of false (WorkingTime.time_logs doc')
  /\ WorkingTime.break_time doc'
     == seconds_of true (WorkingTime.time_logs doc')
  /\ forall i,
       WorkingTime.time_logs doc' !! i =
       (fun log =>
          WorkingTime.compute_duration
            (chained log (WorkingTime.time_logs doc !! (i + 1)%nat)))
         <$> WorkingTime.time_logs doc !! i.
Proof.
  unfold WorkingTime.before_validate.
  destruct (set_durations_spec
              (WorkingTime.set_to_times (WorkingTime.remove_seconds doc)))
    as (Hn & He & Hd & Hlogs & Hw & Hb).
  destruct (set_to_times_spec (WorkingTime.remove_seconds doc))
    as (Hn' & He' & Hd' & Hlogs').
  simpl in *. rewrite Hn, He, Hd, Hn', He', Hd'. split_and!; try done.
  intros i. rewrite Hlogs, list_lookup_fmap, Hlogs'.
  unfold WorkingTime.remove_seconds. simpl. rewrite !list_lookup_fmap.
  destruct (WorkingTime.time_logs doc !! i) as [log|],
           (WorkingTime.time_logs doc !! (i + 1)%nat) as [next|]; try done.
Qed.

End Normalisation.

(** ** Validation *)

Section Validation.

Lemma truthy_num_spec (o : option Q) :
  Py.truthy_num o = true <-> exists d, o = Some d /\ ~ d == 0.
Proof.
  destruct o as [d|]; simpl.
  - rewrite negb_true_iff. split.
    + intros Hz. exists d. split; [done|]. by apply Qeq_bool_neq.
    + intros (d' & [= <-] & Hne).
      destruct (Qeq_bool d 0) eqn:Hz; [|done].
      by apply Qeq_bool_iff in Hz.
  - split; [done|]. by intros (d & ? & _).
Qed.

Lemma truthy_str_spec (o : option string) :
  Py.truthy_str o = true <-> exists s, o = Some s /\ s <> "".
Proof.
  destruct o as [s|]; simpl.
  - rewrite negb_true_iff. split.
    + intros Hs. exists s. split; [done|]. by apply String.eqb_neq.
    + intros (s' & [= <-] & Hne). by apply String.eqb_neq.
  - split; [done|]. by intros (s & ? & _).
Qed.

Lemma negative_duration_spec (log : TimeLog.t) :
  WorkingTime.negative_duration log = true
  <-> exists d, TimeLog.duration log = Some d /\ d < 0.
Proof.
  unfold WorkingTime.negative_duration.
  destruct (TimeLog.duration log) as [d|]; [|split; [done|by intros (d & ? & _)]].
  rewrite andb_true_iff, negb_true_iff, truthy_num_spec. split.
  - intros [_ Hle]. exists d. split; [done|]. apply Qnot_le_lt.
    intros Hle'. apply Qle_bool_iff in Hle'. congruence.
  - intros (d' & [= <-] & Hlt). split.
    + exists d. split; [done|]. intros Hz. rewrite Hz in Hlt.
      by apply Qlt_irrefl in Hlt.
    + destruct (Qle_bool 0 d) eqn:Hle; [|done].
      apply Qle_bool_iff in Hle. by destruct (Qlt_not_le _ _ Hlt).
Qed.

Lemma validate_logs_cases (logs : list TimeLog.t) :
  (WorkingTime.validate_logs logs = Ok tt
   /\ forall log, log ∈ logs -> WorkingTime.negative_duration log = false)
  \/ (WorkingTime.validate_logs logs
      = Raise (ValidationError "Time logs must be continuous")
      /\ exists log, log ∈ logs /\ WorkingTime.negative_duration log = true).
Proof.
  induction logs as [|log logs IH]; simpl.
  - left. split; [done|]. by intros log ?%elem_of_nil.
  - destruct (WorkingTime.negative_duration log) eqn:Hneg.
    + right. split; [done|]. exists log. split; [by left|done].
    + destruct IH as [[-> Hall]|[-> (log' & Hin & Hneg')]].
      * left. split; [done|]. by intros log' [->|Hin]%elem_of_cons; [|apply Hall].
      * right. split; [done|]. exists log'. split; [by right|done].
Qed.

Lemma validate_raises_iff (doc : WorkingTime.t) :
  WorkingTime.validate doc = Raise (ValidationError "Time logs must be continuous")
  <-> exists log d,
        log ∈ WorkingTime.time_logs doc
        /\ TimeLog.duration log = Some d /\ d < 0.
Proof.
  unfold WorkingTime.validate.
  destruct (validate_logs_cases (WorkingTime.time_logs doc))
    as [[-> Hall]|[-> (log & Hin & Hneg)]].
  - split; [done|]. intros (log & d & Hin & Hd & Hlt).
    assert (WorkingTime.negative_duration log = true) as Hneg
      by (apply negative_duration_spec; by exists d).
    rewrite (Hall log Hin) in Hneg. done.
  - split; [intros _|done].
    apply negative_duration_spec in Hneg as (d & Hd & Hlt). by exists log, d.
Qed.

Lemma validate_ok_iff (doc : WorkingTime.t) :
  WorkingTime.validate doc = Ok tt
  <-> ~ exists log d,
          log ∈ WorkingTime.time_logs doc
          /\ TimeLog.duration log = Some d /\ d < 0.
Proof.
  rewrite <- validate_raises_iff. unfold WorkingTime.validate.
  destruct (validate_logs_cases (WorkingTime.time_logs doc))
    as [[-> _]|[-> _]]; split; try done; tauto.
Qed.

End Validation.

Section Submission.
Context {H : Host}.

Lemma submit_rejected (doc : WorkingTime.t) (db : Db) (e : exn) :
  WorkingTime.validate (WorkingTime.before_validate doc) = Raise e ->
  Lifecycle.submit_working_time doc db = (Raise e, db).
Proof.
  intros Hval. unfold Lifecycle.submit_working_time, bind, lift.
  by rewrite Hval.
Qed.

Lemma submit_accepted (doc : WorkingTime.t) (db : Db) :
  WorkingTime.validate (WorkingTime.before_validate doc) = Ok tt ->
  (Lifecycle.submit_working_time doc db).2
  = (WorkingTime.on_submit (WorkingTime.before_validate doc) db).2.
Proof.
  intros Hval. unfold Lifecycle.submit_working_time, bind, lift.
  rewrite Hval.
  by destruct (WorkingTime.on_submit (WorkingTime.before_validate doc) db)
    as [[[]|e] db'].
Qed.

End Submission.

(** C4.  validate raises the rejection "Time logs must be continuous" if
    and only if some time log has a duration below zero, and otherwise
    returns normally; when the normalised document is rejected, the
    submission ends with that rejection before on_submit runs and the
    database is what it was. *)
Theorem validate_rejects_negative_duration {H : Host}
    (doc : WorkingTime.t) (db : Db) :
  (WorkingTime.validate doc
   = Raise (ValidationError "Time logs must be continuous")
   <-> exists log d,
         log ∈ WorkingTime.time_logs doc
         /\ TimeLog.duration log = Some d /\ d < 0)
  /\ (WorkingTime.validate doc = Ok tt
      <-> ~ exists log d,
              log ∈ WorkingTime.time_logs doc
              /\ TimeLog.duration log = Some d /\ d < 0)
  /\ ((exists log d,
         log ∈ WorkingTime.time_logs (WorkingTime.before_validate doc)
         /\ TimeLog.duration log = Some d /\ d < 0) ->
      Lifecycle.submit_working_time doc db
      = (Raise (ValidationError "Time logs must be continuous"), db)).
Proof.
  split_and!.
  - apply validate_raises_iff.
  - apply validate_ok_iff.
  - intros Hneg. apply submit_rejected. by apply validate_raises_iff.
Qed.

(** C9.  Attendance creation keeps the property that at most one
    Attendance exists per (employee, date): it holds after
    create_attendance, after on_submit and after a whole submission
    whenever it held before; and when an Attendance already exists for
    the employee and the date, none of the three changes the Attendance
    table. *)
Theorem attendance_at_most_one_per_day {H : Host}
    (doc : WorkingTime.t) (db : Db) :
  (one_attendance_per_day db ->
   one_attendance_per_day (WorkingTime.create_attendance doc db).2
   /\ one_attendance_per_day (WorkingTime.on_submit doc db).2
   /\ one_attendance_per_day (Lifecycle.submit_working_time doc db).2)
  /\ (has_attendance db (WorkingTime.employee doc) (WorkingTime.date doc) ->
      WorkingTime.create_attendance doc db = (Ok tt, db)
      /\ attendances (WorkingTime.on_submit doc db).2 = attendances db
      /\ attendances (Lifecycle.submit_working_time doc db).2 = attendances db).
Proof.
  assert (forall self db0,
            one_attendance_per_day db0 ->
            one_attendance_per_day (WorkingTime.on_submit self db0).2)
    as Hsubmit.
  { intros self db0 Hinv. pose proof (on_submit_attendances self db0) as Heq.
    pose proof (create_attendance_invariant self db0 Hinv) as Hinv'.
    unfold one_attendance_per_day in *. by rewrite Heq. }
  assert (forall self db0,
            has_attendance db0 (WorkingTime.employee self) (WorkingTime.date self) ->
            attendances (WorkingTime.on_submit self db0).2 = attendances db0)
    as Hkeep.
  { intros self db0 Hhas. rewrite on_submit_attendances.
    by rewrite create_attendance_existing. }
  destruct (before_validate_spec doc) as (_ & He & Hd & _).
  split.
  - intros Hinv. split_and!.
    + by apply create_attendance_invariant.
    + by apply Hsubmit.
    + destruct (WorkingTime.validate (WorkingTime.before_validate doc))
        as [[]|e] eqn:Hval.
      * rewrite submit_accepted by done. by apply Hsubmit.
      * by rewrite (submit_rejected doc db e).
  - intros Hhas. split_and!.
    + by apply create_attendance_existing.
    + by apply Hkeep.
    + destruct (WorkingTime.validate (WorkingTime.before_validate doc))
        as [[]|e] eqn:Hval.
      * rewrite submit_accepted by done. apply Hkeep. by rewrite He, Hd.
      * by rewrite (submit_rejected doc db e).
Qed.

Section Qualification.

Lemma working_time_qualifies_spec (log : TimeLog.t) :
  WorkingTime.qualifies log = true
  <-> exists d p,
        TimeLog.duration log = Some d /\ ~ d == 0
        /\ TimeLog.project log = Some p /\ p <> "".
Proof.
  unfold WorkingTime.qualifies.
  rewrite andb_true_iff, truthy_num_spec, truthy_str_spec. split.
  - intros [(d & Hd & Hnz) (p & Hp & Hne)]. by exists d, p.
  - intros (d & p & Hd & Hnz & Hp & Hne). split; [by exists d|by exists p].
Qed.

Lemma freelancer_qualifies_spec (log : FreelancerLog.t) :
  FreelancerTime.qualifies log = true
  <-> exists d p,
        FreelancerLog.duration log = Some d /\ ~ d == 0
        /\ FreelancerLog.project log = Some p /\ p <> "".
Proof.
  unfold FreelancerTime.qualifies.
  rewrite andb_true_iff, truthy_num_spec, truthy_str_spec. split.
  - intros [(d & Hd & Hnz) (p & Hp & Hne)]. by exists d, p.
  - intros (d & p & Hd & Hnz & Hp & Hne). split; [by exists d|by exists p].
Qed.

Lemma validated_qualifies_spec (doc : WorkingTime.t) (log : TimeLog.t) :
  WorkingTime.validate doc = Ok tt ->
  log ∈ WorkingTime.time_logs doc ->
  WorkingTime.qualifies log = true
  <-> exists d p,
        TimeLog.duration log = Some d /\ 0 < d
        /\ TimeLog.project log = Some p /\ p <> "".
Proof.
  intros Hval Hin. rewrite working_time_qualifies_spec.
  apply validate_ok_iff in Hval. split.
  - intros (d & p & Hd & Hnz & Hp & Hne). exists d, p. split_and!; try done.
    destruct (Qlt_le_dec 0 d) as [Hpos|Hle]; [done|].
    destruct Hval. exists log, d. split_and!; try done.
    apply Qle_lt_or_eq in Hle as [Hlt|Heq]; [done|]. by destruct Hnz.
  - intros (d & p & Hd & Hpos & Hp & Hne). exists d, p. split_and!; try done.
    intros Hz. rewrite Hz in Hpos. by apply Qlt_irrefl in Hpos.
Qed.

Lemma sheets_single_line {A} (sheet : A -> Timesheet.t -> Prop)
    (logs : list A) (sheets : list Timesheet.t) :
  (forall log ts, sheet log ts -> length (Timesheet.time_logs ts) = 1%nat) ->
  Forall2 sheet logs sheets ->
  Forall (fun ts => length (Timesheet.time_logs ts) = 1%nat) sheets.
Proof.
  intros Hone Hall. induction Hall; constructor; eauto.
Qed.

End Qualification.

Section OnSubmit.
Context {H : Host}.

Lemma create_attendance_ok (self : WorkingTime.t) (db : Db) :
  autoname_fresh H ->
  exists db1,
    WorkingTime.create_attendance self db = (Ok tt, db1)
    /\ timesheets db1 = timesheets db.
Proof.
  intros Hfresh.
  destruct (create_attendance_cases self db)
    as [[_ Hrun]|[(_ & _ & Hin)|(_ & n & _ & Hrun)]].
  - by exists db.
  - by destruct (Hfresh (dom (attendances db))).
  - by eexists.
Qed.

Lemma on_submit_created (self : WorkingTime.t) db n ts :
  timesheets (WorkingTime.on_submit self db).2 !! n = Some ts ->
  timesheets db !! n = None ->
  exists log, log ∈ WorkingTime.time_logs self
    /\ WorkingTime.qualifies log = true
    /\ working_time_sheet self log ts.
Proof.
  unfold WorkingTime.on_submit, bind.
  pose proof (create_attendance_timesheets self db) as Hsame.
  destruct (WorkingTime.create_attendance self db) as [[[]|e] db1];
    simpl in Hsame; intros Hnew Hold.
  - apply (working_time_created self db1 n ts Hnew). by rewrite Hsame.
  - simpl in Hnew. congruence.
Qed.

End OnSubmit.

(** C6 (amended).  With fresh document names and successful lookups,
    on_submit of WorkingTime and of FreelancerTime returns normally and
    adds to the Timesheet table exactly one new Timesheet, of a single
    line, for each time log that passes the guard
    [log.duration and log.project], in order, and nothing else.  The guard
    holds exactly when the duration is set and not zero and the project is
    set and not empty; for a WorkingTime document that passed validate
    this is the same as a strictly positive duration and a set project. *)
Theorem one_timesheet_per_qualifying_log {H : Host}
    (wt : WorkingTime.t) (ft : FreelancerTime.t) (db : Db) :
  autoname_fresh H ->
  (forall log, log ∈ WorkingTime.time_logs wt ->
     WorkingTime.qualifies log = true -> working_time_log_resolves log) ->
  (forall log, log ∈ FreelancerTime.time_logs ft ->
     FreelancerTime.qualifies log = true -> freelancer_log_resolves log) ->
  (exists db1 new db',
     WorkingTime.create_attendance wt db = (Ok tt, db1)
     /\ timesheets db1 = timesheets db
     /\ WorkingTime.on_submit wt db = (Ok tt, db')
     /\ adds_timesheets new db1 db'
     /\ Forall2 (working_time_sheet wt)
          (filter (fun log => WorkingTime.qualifies log = true)
                  (WorkingTime.time_logs wt))
          new.*2
     /\ Forall (fun ts => length (Timesheet.time_logs ts) = 1%nat) new.*2
     /\ size (timesheets db')
        = (size (timesheets db)
           + length (filter (fun log => WorkingTime.qualifies log = true)
                            (WorkingTime.time_logs wt)))%nat)
  /\ (exists new db',
        FreelancerTime.on_submit ft db = (Ok tt, db')
        /\ adds_timesheets new db db'
        /\ Forall2 (freelancer_time_sheet ft)
             (filter (fun log => FreelancerTime.qualifies log = true)
                     (FreelancerTime.time_logs ft))
             new.*2
        /\ Forall (fun ts => length (Timesheet.time_logs ts) = 1%nat) new.*2
        /\ size (timesheets db')
           = (size (timesheets db)
              + length (filter (fun log => FreelancerTime.qualifies log = true)
                               (FreelancerTime.time_logs ft)))%nat)
  /\ (forall log,
        WorkingTime.qualifies log = true
        <-> exists d p,
              TimeLog.duration log = Some d /\ ~ d == 0
              /\ TimeLog.project log = Some p /\ p <> "")
  /\ (forall log,
        FreelancerTime.qualifies log = true
        <-> exists d p,
              FreelancerLog.duration log = Some d /\ ~ d == 0
              /\ FreelancerLog.project log = Some p /\ p <> "")
  /\ (WorkingTime.validate wt = Ok tt ->
      forall log, log ∈ WorkingTime.time_logs wt ->
        WorkingTime.qualifies log = true
        <-> exists d p,
              TimeLog.duration log = Some d /\ 0 < d
              /\ TimeLog.project log = Some p /\ p <> "").
Proof.
  intros Hfresh Hwt Hft. split_and!.
  - destruct (create_attendance_ok wt db Hfresh) as (db1 & Hatt & Hsame).
    destruct (working_time_create_timesheets_ok wt db1 Hfresh Hwt)
      as (new & db' & Hrun & Hadds & Hsheets).
    exists db1, new, db'. split_and!; try done.
    + unfold WorkingTime.on_submit, bind. by rewrite Hatt.
    + apply (sheets_single_line _ _ _ (fun log ts Hs =>
        ltac:(destruct (working_time_sheet_lines wt log ts Hs)
                as (? & ? & ? & _ & _ & -> & _); reflexivity)) Hsheets).
    + rewrite (adds_timesheets_size _ _ _ Hadds), Hsame.
      f_equal. by rewrite (Forall2_length _ _ _ Hsheets), length_fmap.
  - destruct (freelancer_create_timesheets_ok ft db Hfresh Hft)
      as (new & db' & Hrun & Hadds & Hsheets).
    exists new, db'. split_and!; try done.
    + apply (sheets_single_line _ _ _ (fun log ts Hs =>
        ltac:(destruct (freelancer_sheet_lines ft log ts Hs)
                as (? & ? & _ & -> & _); reflexivity)) Hsheets).
    + rewrite (adds_timesheets_size _ _ _ Hadds).
      f_equal. by rewrite (Forall2_length _ _ _ Hsheets), length_fmap.
  - apply working_time_qualifies_spec.
  - apply freelancer_qualifies_spec.
  - intros Hval log Hin. by apply (validated_qualifies_spec wt).
Qed.

(** C7 (amended).  Every line of a Timesheet added by on_submit of
    FreelancerTime carries as its from_time the [date] field of the log it
    was built from; every line of a Timesheet added by on_submit of
    WorkingTime carries the [date] of the WorkingTime document. *)
Theorem timesheet_from_time_source {H : Host}
    (wt : WorkingTime.t) (ft : FreelancerTime.t) (db : Db)
    (n : string) (ts : Timesheet.t) :
  timesheets db !! n = None ->
  (timesheets (FreelancerTime.on_submit ft db).2 !! n = Some ts ->
   exists log,
     log ∈ FreelancerTime.time_logs ft
     /\ freelancer_time_sheet ft log ts
     /\ forall line, line ∈ Timesheet.time_logs ts ->
          TimesheetDetail.from_time line = FreelancerLog.date log)
  /\ (timesheets (WorkingTime.on_submit wt db).2 !! n = Some ts ->
      forall line, line ∈ Timesheet.time_logs ts ->
        TimesheetDetail.from_time line = Some (WorkingTime.date wt)).
Proof.
  intros Hold. split.
  - intros Hnew.
    destruct (freelancer_created ft db n ts Hnew Hold) as (log & Hin & _ & Hsheet).
    exists log. split_and!; try done.
    destruct (freelancer_sheet_lines ft log ts Hsheet)
      as (d & line' & _ & -> & _ & _ & Hfrom).
    by intros line ->%list_elem_of_singleton.
  - intros Hnew.
    destruct (on_submit_created wt db n ts Hnew Hold) as (log & _ & _ & Hsheet).
    destruct (working_time_sheet_lines wt log ts Hsheet)
      as (d & pct & line' & _ & _ & -> & _ & _ & Hfrom).
    by intros line ->%list_elem_of_singleton.
Qed.

(** ** Chaining of the time logs *)

Section Truncation.

Lemma string_length_app (s1 s2 : string) :
  String.length (s1 +:+ s2) = (String.length s1 + String.length s2)%nat.
Proof. induction s1 as [|c s1 IH]; simpl; [done|]. by rewrite IH. Qed.

Lemma substring_prefix (s1 s2 : string) :
  String.substring 0 (String.length s1) (s1 +:+ s2) = s1.
Proof.
  induction s1 as [|c s1 IH]; simpl.
  - by destruct s2.
  - by rewrite IH.
Qed.

Lemma drop_last_app (s1 s2 : string) :
  Py.drop_last (String.length s2) (s1 +:+ s2) = s1.
Proof.
  unfold Py.drop_last. rewrite string_length_app.
  replace (String.length s1 + String.length s2 - String.length s2)%nat
    with (String.length s1) by lia.
  apply substring_prefix.
Qed.

Lemma zero_seconds_app (hm ss : string) :
  String.length ss = 2%nat ->
  WorkingTime.zero_seconds (Some (hm +:+ ss)) = Some (hm +:+ "00").
Proof.
  intros Hss. unfold WorkingTime.zero_seconds.
  assert (Py.truthy_str (Some (hm +:+ ss)) = true) as ->.
  { simpl. apply negb_true_iff, String.eqb_neq. intros Hnil.
    apply (f_equal String.length) in Hnil. rewrite string_length_app in Hnil.
    simpl in Hnil. lia. }
  simpl. by rewrite <- Hss, drop_last_app.
Qed.

End Truncation.

Section Chaining.
Context {H : Host}.

Lemma compute_duration_fields (log : TimeLog.t) :
  TimeLog.from_time (WorkingTime.compute_duration log) = TimeLog.from_time log
  /\ TimeLog.to_time (WorkingTime.compute_duration log) = TimeLog.to_time log
  /\ TimeLog.is_break (WorkingTime.compute_duration log) = TimeLog.is_break log
  /\ TimeLog.project (WorkingTime.compute_duration log) = TimeLog.project log.
Proof.
  unfold WorkingTime.compute_duration.
  by destruct (Py.truthy_str (TimeLog.from_time log)
               && Py.truthy_str (TimeLog.to_time log)).
Qed.

Lemma compute_duration_set (log : TimeLog.t) :
  Py.truthy_str (TimeLog.from_time log) = true ->
  Py.truthy_str (TimeLog.to_time log) = true ->
  TimeLog.duration (WorkingTime.compute_duration log)
  = Some (time_diff_in_seconds (Py.fmt (TimeLog.to_time log))
                               (Py.fmt (TimeLog.from_time log))).
Proof.
  intros Hf Ht. unfold WorkingTime.compute_duration. by rewrite Hf, Ht.
Qed.

Lemma compute_duration_kept (log : TimeLog.t) :
  Py.truthy_str (TimeLog.from_time log) && Py.truthy_str (TimeLog.to_time log)
  = false ->
  WorkingTime.compute_duration log = log.
Proof. intros Hg. unfold WorkingTime.compute_duration. by rewrite Hg. Qed.

Lemma lookup_fmap_length {A B} (f : nat -> A -> B) (l : list A) (k : list B) :
  (forall i, k !! i = f i <$> l !! i) -> length k = length l.
Proof.
  intros Hlook. apply Nat.le_antisymm.
  - apply Nat.nlt_ge. intros Hlt.
    destruct (lookup_lt_is_Some_2 k (length l) Hlt) as [y Hy].
    rewrite Hlook, (lookup_ge_None_2 l (length l)) in Hy by lia. done.
  - apply Nat.nlt_ge. intros Hlt.
    destruct (lookup_lt_is_Some_2 l (length k) Hlt) as [x Hx].
    pose proof (Hlook (length k)) as Hk.
    rewrite Hx, (lookup_ge_None_2 k (length k)) in Hk by lia. done.
Qed.

End Chaining.

(** C5.  before_validate is remove_seconds, then set_to_times, then
    set_durations.  Afterwards the document has as many logs as before;
    the from_time of every log is its given from_time with the seconds
    replaced by 00; every log that has a successor has as its to_time the
    from_time of the successor (itself the successor's given from_time
    with the seconds replaced by 00); the last log keeps its given to_time
    (seconds replaced by 00); and every log with both times set has
    [duration = time_diff_in_seconds(to_time, from_time)].  Replacing the
    seconds turns a time written [hm ++ ss], [ss] of two characters, into
    [hm ++ "00"]. *)
Theorem normalization_chains_logs {H : Host} (doc : WorkingTime.t) :
  let doc' := WorkingTime.before_validate doc in
  let logs := WorkingTime.time_logs doc in
  let logs' := WorkingTime.time_logs doc' in
  doc' = WorkingTime.set_durations
           (WorkingTime.set_to_times (WorkingTime.remove_seconds doc))
  /\ length logs' = length logs
  /\ (forall i log orig,
        logs' !! i = Some log -> logs !! i = Some orig ->
        TimeLog.from_time log = WorkingTime.zero_seconds (TimeLog.from_time orig))
  /\ (forall i log next orig_next,
        logs' !! i = Some log -> logs' !! (i + 1)%nat = Some next ->
        logs !! (i + 1)%nat = Some orig_next ->
        TimeLog.to_time log = TimeLog.from_time next
        /\ TimeLog.from_time next
           = WorkingTime.zero_seconds (TimeLog.from_time orig_next))
  /\ (forall i log orig,
        logs' !! i = Some log -> logs !! i = Some orig ->
        logs !! (i + 1)%nat = None ->
        TimeLog.to_time log = WorkingTime.zero_seconds (TimeLog.to_time orig))
  /\ (forall log,
        log ∈ logs' ->
        Py.truthy_str (TimeLog.from_time log) = true ->
        Py.truthy_str (TimeLog.to_time log) = true ->
        TimeLog.duration log
        = Some (time_diff_in_seconds (Py.fmt (TimeLog.to_time log))
                                     (Py.fmt (TimeLog.from_time log))))
  /\ (forall hm ss,
        String.length ss = 2%nat ->
        WorkingTime.zero_seconds (Some (hm +:+ ss)) = Some (hm +:+ "00")).
Proof.
  intros doc' logs logs'.
  destruct (before_validate_spec doc) as (_ & _ & _ & _ & _ & Hlook).
  fold doc' logs logs' in Hlook.
  split_and!.
  - done.
  - by apply (lookup_fmap_length _ _ _ Hlook).
  - intros i log orig Hlog Horig. rewrite Hlook, Horig in Hlog.
    injection Hlog as <-.
    destruct (compute_duration_fields (chained orig (logs !! (i + 1)%nat)))
      as (-> & _). done.
  - intros i log next orig_next Hlog Hnext Horig_next.
    rewrite Hlook in Hlog. rewrite Hlook, Horig_next in Hnext.
    injection Hnext as <-.
    destruct (logs !! i) as [orig|]; [|done]. injection Hlog as <-.
    rewrite Horig_next.
    destruct (compute_duration_fields (chained orig (Some orig_next)))
      as (_ & -> & _).
    destruct (compute_duration_fields
                (chained orig_next (logs !! (i + 1 + 1)%nat))) as (-> & _).
    done.
  - intros i log orig Hlog Horig Hlast. rewrite Hlook, Horig, Hlast in Hlog.
    injection Hlog as <-.
    destruct (compute_duration_fields (chained orig None)) as (_ & -> & _).
    done.
  - intros log [i Hi]%list_elem_of_lookup Hf Ht. rewrite Hlook in Hi.
    destruct (logs !! i) as [orig|]; [|done]. injection Hi as <-.
    destruct (compute_duration_fields (chained orig (logs !! (i + 1)%nat)))
      as (Hf' & Ht' & _).
    rewrite Hf' in Hf |- *. rewrite Ht' in Ht |- *.
    by apply compute_duration_set.
  - apply zero_seconds_app.
Qed.

Section KeptDurations.
Context {H : Host}.

Lemma chained_fields (log : TimeLog.t) (next : option TimeLog.t) :
  TimeLog.duration (chained log next) = TimeLog.duration log
  /\ TimeLog.is_break (chained log next) = TimeLog.is_break log
  /\ TimeLog.project (chained log next) = TimeLog.project log.
Proof. done. Qed.

Lemma seconds_of_lookup (logs : list TimeLog.t) : forall i log,
  logs !! i = Some log ->
  seconds_of (TimeLog.is_break log) logs
  == default 0 (TimeLog.duration log)
     + seconds_of (TimeLog.is_break log) (delete i logs).
Proof.
  induction logs as [|log0 logs IH]; intros [|i] log Hlook; simplify_eq/=.
  - by rewrite Bool.eqb_reflx.
  - pose proof (IH i log Hlook) as Hrest.
    destruct (Bool.eqb (TimeLog.is_break log0) (TimeLog.is_break log)).
    + rewrite Hrest, !Qplus_assoc.
      by rewrite (Qplus_comm (default 0 (TimeLog.duration log0))).
    + exact Hrest.
Qed.

End KeptDurations.

(** C10.  After before_validate, a log that lacks from_time or to_time
    (as a non-final log does whose successor has no from_time: its to_time
    is then the successor's unset from_time) has the duration it had
    before: set_durations does not recompute it.  That duration is part of
    the break_time or working_time total, makes validate reject the
    document when it is negative, and decides with the project whether
    create_timesheets builds a Timesheet for the log. *)
Theorem kept_duration_still_used {H : Host}
    (doc : WorkingTime.t) (i : nat) (orig log : TimeLog.t) :
  let doc' := WorkingTime.before_validate doc in
  WorkingTime.time_logs doc !! i = Some orig ->
  WorkingTime.time_logs doc' !! i = Some log ->
  (forall next,
     WorkingTime.time_logs doc !! (i + 1)%nat = Some next ->
     Py.truthy_str (TimeLog.from_time next) = false ->
     TimeLog.to_time log = TimeLog.from_time next
     /\ Py.truthy_str (TimeLog.to_time log) = false)
  /\ (Py.truthy_str (TimeLog.from_time log) && Py.truthy_str (TimeLog.to_time log)
      = false ->
      TimeLog.duration log = TimeLog.duration orig
      /\ (if TimeLog.is_break orig
          then WorkingTime.break_time doc'
               == default 0 (TimeLog.duration orig)
                  + seconds_of true (delete i (WorkingTime.time_logs doc'))
          else WorkingTime.working_time doc'
               == default 0 (TimeLog.duration orig)
                  + seconds_of false (delete i (WorkingTime.time_logs doc')))
      /\ (forall d, TimeLog.duration orig = Some d -> d < 0 ->
            WorkingTime.validate doc'
            = Raise (ValidationError "Time logs must be continuous"))
      /\ WorkingTime.qualifies log
         = Py.truthy_num (TimeLog.duration orig)
           && Py.truthy_str (TimeLog.project orig)).
Proof.
  intros doc' Horig Hlog.
  destruct (before_validate_spec doc) as (_ & _ & _ & Hw & Hb & Hlook).
  fold doc' in Hw, Hb, Hlook.
  pose proof Hlog as Hlog'. rewrite Hlook, Horig in Hlog'.
  injection Hlog' as Hdef.
  set (next := WorkingTime.time_logs doc !! (i + 1)%nat) in *.
  destruct (compute_duration_fields (chained orig next))
    as (Hfrom & Hto & Hbreak & Hproj).
  rewrite Hdef in Hfrom, Hto, Hbreak, Hproj.
  destruct (chained_fields orig next) as (Hd0 & Hb0 & Hp0).
  split.
  - intros nxt Hnext Hnone. rewrite Hto. subst next. rewrite Hnext.
    simpl. unfold WorkingTime.zero_seconds. by rewrite Hnone.
  - intros Hguard. rewrite Hfrom, Hto in Hguard.
    assert (TimeLog.duration log = TimeLog.duration orig) as Hdur.
    { rewrite <- Hdef, compute_duration_kept by done. done. }
    split_and!.
    + done.
    + pose proof (seconds_of_lookup _ _ _ Hlog) as Hsum.
      rewrite Hbreak, Hb0, Hdur in Hsum.
      destruct (TimeLog.is_break orig).
      * by rewrite Hb, Hsum.
      * by rewrite Hw, Hsum.
    + intros d Hd Hneg. apply validate_raises_iff. exists log, d.
      split_and!; [|congruence|done].
      apply list_elem_of_lookup. by exists i.
    + unfold WorkingTime.qualifies. by rewrite Hdur, Hproj, Hp0.
Qed.

(** ** Cancellation *)

Section Cancellation.

Lemma delete_all_lookup (names : list string) : forall (db : Db),
  exists db',
    for_each FreelancerTime.delete_timesheet names db = (Ok tt, db')
    /\ attendances db' = attendances db
    /\ forall n,
         timesheets db' !! n
         = if decide (n ∈ names) then None else timesheets db !! n.
Proof.
  induction names as [|name names IH]; intros db.
  - exists db. by split_and!.
  - rewrite for_each_cons. unfold FreelancerTime.delete_timesheet at 1, modify.
    destruct (IH (set_timesheets (delete name) db)) as (db' & -> & Hatt & Hlook).
    exists db'. split_and!; try done. intros n. rewrite Hlook. simpl.
    destruct (decide (n = name)) as [->|Hne].
    + rewrite lookup_delete_eq, (decide_True (P := name ∈ name :: names))
        by by left.
      by case_decide.
    + rewrite lookup_delete_ne by done.
      destruct (decide (n ∈ names)) as [Hin|Hout].
      * by rewrite decide_True by by right.
      * rewrite decide_False; [done|]. by intros [?|?]%elem_of_cons.
Qed.

Lemma get_list_timesheets_spec (keep : Timesheet.t -> bool) (db : Db) :
  exists names,
    FreelancerTime.get_list_timesheets keep db = (Ok names, db)
    /\ forall n,
         n ∈ names
         <-> exists ts, timesheets db !! n = Some ts /\ keep ts = true.
Proof.
  unfold FreelancerTime.get_list_timesheets, gets. eexists. split; [done|].
  intros n. rewrite list_elem_of_fmap. split.
  - intros ([n' ts] & -> & Hin). apply list_elem_of_filter in Hin as [Hk Hin].
    apply elem_of_map_to_list in Hin. by exists ts.
  - intros (ts & Hlook & Hk). exists (n, ts). split; [done|].
    apply list_elem_of_filter. split; [done|]. by apply elem_of_map_to_list.
Qed.

Lemma delete_draft_timesheets_spec (self : FreelancerTime.t) (db : Db) :
  exists db',
    FreelancerTime.delete_draft_timesheets self db = (Ok tt, db')
    /\ attendances db' = attendances db
    /\ forall n,
         timesheets db' !! n
         = match timesheets db !! n with
           | Some ts =>
               if FreelancerTime.is_linked_draft self ts then None else Some ts
           | None => None
           end.
Proof.
  unfold FreelancerTime.delete_draft_timesheets, bind.
  destruct (get_list_timesheets_spec (FreelancerTime.is_linked_draft self) db)
    as (names & -> & Hnames).
  destruct (delete_all_lookup names db) as (db' & -> & Hatt & Hlook).
  exists db'. split_and!; try done. intros n. rewrite Hlook.
  destruct (decide (n ∈ names)) as [Hin|Hout].
  - apply Hnames in Hin as (ts & -> & ->). done.
  - destruct (timesheets db !! n) as [ts|] eqn:Hts; [|done].
    destruct (FreelancerTime.is_linked_draft self ts) eqn:Hk; [|done].
    destruct Hout. apply Hnames. by exists ts.
Qed.

End Cancellation.

(** C8.  Cancelling a FreelancerTime returns normally, deletes every
    Timesheet that is linked to the record and is a draft, and leaves
    every other Timesheet (submitted, cancelled, or linked to another
    record) and the Attendance table as they were; with no linked draft
    the database is unchanged. *)
Theorem cancel_deletes_only_linked_drafts
    (self : FreelancerTime.t) (db : Db) :
  exists db',
    FreelancerTime.on_cancel self db = (Ok tt, db')
    /\ Lifecycle.cancel_freelancer_time self db = (Ok tt, db')
    /\ attendances db' = attendances db
    /\ (forall ts,
          FreelancerTime.is_linked_draft self ts = true
          <-> Timesheet.freelancer_time ts = Some (FreelancerTime.name self)
              /\ Timesheet.docstatus ts = draft)
    /\ (forall n ts,
          timesheets db !! n = Some ts ->
          FreelancerTime.is_linked_draft self ts = true ->
          timesheets db' !! n = None)
    /\ (forall n ts,
          timesheets db !! n = Some ts ->
          FreelancerTime.is_linked_draft self ts = false ->
          timesheets db' !! n = Some ts)
    /\ (forall n, timesheets db !! n = None -> timesheets db' !! n = None)
    /\ ((forall n ts,
           timesheets db !! n = Some ts ->
           FreelancerTime.is_linked_draft self ts = false) ->
        db' = db).
Proof.
  destruct (delete_draft_timesheets_spec self db) as (db' & Hrun & Hatt & Hlook).
  exists db'. split_and!; try done.
  - intros ts. unfold FreelancerTime.is_linked_draft.
    by rewrite andb_true_iff, !bool_decide_eq_true.
  - intros n ts Hts Hk. by rewrite Hlook, Hts, Hk.
  - intros n ts Hts Hk. by rewrite Hlook, Hts, Hk.
  - intros n Hts. by rewrite Hlook, Hts.
  - intros Hnone. destruct db as [att tss], db' as [att' tss']. simpl in *.
    f_equal; [done|]. apply map_eq. intros n. rewrite Hlook.
    destruct (tss !! n) as [ts|] eqn:Hts; [|done].
    by rewrite (Hnone n ts Hts).
Qed.

(** ** The hooks on concrete documents *)

Section DemoHost.

Lemma pad_length (n : nat) : String.length (Demo.pad n) = n.
Proof. induction n as [|n IH]; [done|]. simpl. by f_equal. Qed.

Lemma longest_bound (X : gset string) (s : string) :
  s ∈ X -> (String.length s <= Demo.longest X)%nat.
Proof.
  unfold Demo.longest. rewrite <- elem_of_elements.
  induction (elements X) as [|s' l IH]; simpl.
  - by intros ?%elem_of_nil.
  - intros [->|Hin]%elem_of_cons; [lia|]. specialize (IH Hin). lia.
Qed.

Lemma demo_autoname_fresh : autoname_fresh Demo.host.
Proof.
  intros X Hin. apply longest_bound in Hin.
  change (autoname X) with (Demo.pad (S (Demo.longest X))) in Hin.
  rewrite pad_length in Hin. lia.
Qed.

Lemma empty_db_no_attendance (employee date : string) :
  ~ has_attendance Demo.empty_db employee date.
Proof. intros (n & a & Hlook & _). simpl in Hlook. by rewrite lookup_empty in Hlook. Qed.

Lemma attended_db_invariant : one_attendance_per_day Demo.attended_db.
Proof.
  intros n1 n2 a1 a2. simpl.
  intros [-> _]%lookup_singleton_Some [-> _]%lookup_singleton_Some _ _. done.
Qed.

End DemoHost.

(** The chaining example of the spec: from_times 09:00, 09:05:30 and 12:00
    give to_times 09:05 and 12:00 and durations of 300 and 10500
    seconds. *)
Example morning_is_chained :
  (fun log => (TimeLog.from_time log, TimeLog.to_time log, TimeLog.duration log))
    <$> WorkingTime.time_logs Demo.morning_normalised
  = [(Some "09:00:00", Some "09:05:00", Some 300);
     (Some "09:05:00", Some "12:00:00", Some 10500);
     (Some "12:00:00", None, None)].
Proof. vm_compute. reflexivity. Qed.

(** The description examples of the spec. *)
Example description_with_key_and_note :
  @get_description Demo.host (Some "acme.atlassian.net") (Some "ABC-1")
    (Some "done early")
  = Ok ("Fix bug (ABC-1):" +:+ Py.newline +:+ Py.newline +:+ "done early")
  /\ @get_description Demo.host (Some "acme.atlassian.net") None None = Ok "-".
Proof. split; reflexivity. Qed.



Lemma attendance_status_threshold_witness :
  exists n a,
    @WorkingTime.create_attendance Demo.host Demo.morning_normalised Demo.empty_db
    = (Ok tt, set_attendances (fun _ => <[n := a]> ∅) Demo.empty_db)
    /\ Attendance.docstatus a = submitted
    /\ (Attendance.status a = "Half Day" <-> 10800 <= 13455).
Proof.
  destruct (@attendance_status_threshold Demo.host Demo.morning_normalised
              Demo.empty_db demo_autoname_fresh
              (empty_db_no_attendance "EMP-1" "2023-05-02"))
    as (_ & (n & a & _ & Hrun & _ & _ & Hsub & _ & Hhalf) & _).
  exists n, a. split_and!; [exact Hrun|exact Hsub|].
  split.
  - intros _. vm_compute. discriminate.
  - intros _. apply Hhalf. vm_compute. discriminate.
Defined.

Lemma validate_rejects_negative_duration_witness :
  @Lifecycle.submit_working_time Demo.host Demo.out_of_order Demo.empty_db
  = (Raise (ValidationError "Time logs must be continuous"), Demo.empty_db).
Proof.
  destruct (@validate_rejects_negative_duration Demo.host Demo.out_of_order
              Demo.empty_db) as (_ & _ & Hblocked).
  apply Hblocked.
  exists (TimeLog.mk (Some "12:00:00") (Some "09:00:00") (Some (-10800)) false
            (Some "Website") (Some "100%") None None), (-10800).
  split_and!.
  - vm_compute. constructor.
  - reflexivity.
  - vm_compute. reflexivity.
Defined.

Lemma normalization_chains_logs_witness :
  TimeLog.to_time
    (TimeLog.mk (Some "09:00:00") (Some "09:05:00") (Some 300) false
       (Some "Website") (Some "100%") None None)
  = TimeLog.from_time
      (TimeLog.mk (Some "09:05:00") (Some "12:00:00") (Some 10500) false
         (Some "Website") (Some "100%") None None)
  /\ TimeLog.from_time
       (TimeLog.mk (Some "09:05:00") (Some "12:00:00") (Some 10500) false
          (Some "Website") (Some "100%") None None)
     = WorkingTime.zero_seconds (Some "09:05:30")
  /\ WorkingTime.zero_seconds (Some ("09:05:" +:+ "30")) = Some ("09:05:" +:+ "00").
Proof.
  destruct (@normalization_chains_logs Demo.host Demo.morning)
    as (_ & _ & _ & Hchain & _ & _ & Htrunc).
  split_and!.
  - apply (Hchain 0%nat _ _ (Demo.punch "09:05:30" false (Some "Website")));
      vm_compute; reflexivity.
  - apply (Hchain 0%nat
             (TimeLog.mk (Some "09:00:00") (Some "09:05:00") (Some 300) false
                (Some "Website") (Some "100%") None None)
             _ (Demo.punch "09:05:30" false (Some "Website")));
      vm_compute; reflexivity.
  - apply Htrunc. reflexivity.
Defined.

Lemma one_timesheet_per_qualifying_log_witness :
  (exists db',
     @WorkingTime.on_submit Demo.host Demo.morning_normalised Demo.empty_db
     = (Ok tt, db')
     /\ size (timesheets db') = 2%nat)
  /\ (exists db',
        @FreelancerTime.on_submit Demo.host Demo.freelancer Demo.empty_db
        = (Ok tt, db')
        /\ size (timesheets db') = 1%nat).
Proof.
  assert (forall p : string, p = "Website" ->
            @project_values Demo.host p
            = Some (Some "ACME", Some 120, Some "acme.atlassian.net")) as Hproj
    by (by intros p ->).
  destruct (@one_timesheet_per_qualifying_log Demo.host Demo.morning_normalised
              Demo.freelancer Demo.empty_db demo_autoname_fresh)
    as ((db1 & new & db' & _ & _ & Hrun & _ & _ & _ & Hsize)
        & (new2 & db2 & Hrun2 & _ & _ & _ & Hsize2) & _).
  - intros log Hin Hq. vm_compute in Hin.
    repeat (apply elem_of_cons in Hin as [->|Hin]);
      [| |discriminate Hq|by apply elem_of_nil in Hin];
      exists "Website", 100, (Some "ACME"), (Some 120),
             (Some "acme.atlassian.net"), "-";
      split_and!; reflexivity.
  - intros log Hin Hq. vm_compute in Hin.
    repeat (apply elem_of_cons in Hin as [->|Hin]);
      [|by apply elem_of_nil in Hin].
    exists "Website", (Some "ACME"), (Some 120), (Some "acme.atlassian.net"),
           ("Fix bug (ABC-1):" +:+ Py.newline +:+ Py.newline +:+ "done early").
    split_and!; reflexivity.
  - split.
    + exists db'. split; [exact Hrun|exact Hsize].
    + exists db2. split; [exact Hrun2|exact Hsize2].
Defined.

(** Not every Timesheet that on_submit of FreelancerTime creates comes
    from a log of strictly positive duration: the log [Demo.refund], of
    -300 seconds and with a project, passes the guard and gets one. *)
Lemma negative_duration_gets_timesheet :
  ~ (forall (H : Host) (ft : FreelancerTime.t) (db : Db)
            (log : FreelancerLog.t) (n : string) (ts : Timesheet.t),
       log ∈ FreelancerTime.time_logs ft ->
       timesheets db !! n = None ->
       timesheets (FreelancerTime.on_submit ft db).2 !! n = Some ts ->
       freelancer_time_sheet ft log ts ->
       exists d, FreelancerLog.duration log = Some d /\ 0 < d).
Proof.
  intros Hclaim.
  destruct (Hclaim Demo.host Demo.freelancer_refund Demo.empty_db Demo.refund
              "T" Demo.refund_sheet) as (d & Hd & Hpos).
  - constructor.
  - reflexivity.
  - vm_compute. reflexivity.
  - exists (-300), "Website", (Some "ACME"), (Some 120),
           (Some "acme.atlassian.net"), "-".
    split_and!; reflexivity.
  - injection Hd as <-. vm_compute in Hpos. discriminate.
Qed.

Lemma timesheet_from_time_source_witness :
  (exists log,
     log ∈ FreelancerTime.time_logs Demo.freelancer
     /\ freelancer_time_sheet (H := Demo.host) Demo.freelancer log
          Demo.consulting_sheet
     /\ forall line, line ∈ Timesheet.time_logs Demo.consulting_sheet ->
          TimesheetDetail.from_time line = FreelancerLog.date log)
  /\ (forall line, line ∈ Timesheet.time_logs Demo.morning_sheet ->
        TimesheetDetail.from_time line = Some "2023-05-02").
Proof.
  split.
  - apply (@timesheet_from_time_source Demo.host Demo.morning_normalised
             Demo.freelancer Demo.empty_db "T" Demo.consulting_sheet);
      vm_compute; reflexivity.
  - apply (@timesheet_from_time_source Demo.host Demo.morning_normalised
             Demo.freelancer Demo.empty_db "T" Demo.morning_sheet);
      vm_compute; reflexivity.
Defined.

(** Not every Timesheet that on_submit of FreelancerTime creates carries
    the from_time of its log: the one created for [Demo.consulting]
    carries the log's [date], 2023-05-02, while the log's from_time is
    2023-05-02 09:00:00. *)
Lemma freelancer_from_time_is_log_date :
  ~ (forall (H : Host) (ft : FreelancerTime.t) (db : Db)
            (log : FreelancerLog.t) (n : string) (ts : Timesheet.t)
            (line : TimesheetDetail.t),
       log ∈ FreelancerTime.time_logs ft ->
       timesheets db !! n = None ->
       timesheets (FreelancerTime.on_submit ft db).2 !! n = Some ts ->
       freelancer_time_sheet ft log ts ->
       line ∈ Timesheet.time_logs ts ->
       TimesheetDetail.from_time line = FreelancerLog.from_time log).
Proof.
  intros Hclaim.
  assert (TimesheetDetail.from_time Demo.consulting_line
          = FreelancerLog.from_time Demo.consulting) as Hfrom.
  { apply (Hclaim Demo.host Demo.freelancer Demo.empty_db Demo.consulting
             "T" Demo.consulting_sheet).
    - constructor.
    - reflexivity.
    - vm_compute. reflexivity.
    - exists 450, "Website", (Some "ACME"), (Some 120),
             (Some "acme.atlassian.net"),
             ("Fix bug (ABC-1):" +:+ Py.newline +:+ Py.newline +:+ "done early").
      split_and!; reflexivity.
    - constructor. }
  discriminate Hfrom.
Qed.

Lemma cancel_deletes_only_linked_drafts_witness :
  exists db',
    FreelancerTime.on_cancel Demo.freelancer Demo.billed_db = (Ok tt, db')
    /\ timesheets db' !! "TS-1" = None
    /\ timesheets db' !! "TS-2" = Some Demo.submitted_sheet
    /\ timesheets db' !! "TS-3" = Some Demo.other_sheet.
Proof.
  destruct (cancel_deletes_only_linked_drafts Demo.freelancer Demo.billed_db)
    as (db' & Hrun & _ & _ & _ & Hgone & Hkept & _).
  exists db'. split_and!.
  - exact Hrun.
  - apply (Hgone "TS-1" Demo.consulting_sheet); vm_compute; reflexivity.
  - apply (Hkept "TS-2" Demo.submitted_sheet); vm_compute; reflexivity.
  - apply (Hkept "TS-3" Demo.other_sheet); vm_compute; reflexivity.
Defined.

Lemma attendance_at_most_one_per_day_witness :
  one_attendance_per_day
    (@Lifecycle.submit_working_time Demo.host Demo.morning Demo.attended_db).2
  /\ attendances
       (@Lifecycle.submit_working_time Demo.host Demo.morning Demo.attended_db).2
     = attendances Demo.attended_db.
Proof.
  destruct (@attendance_at_most_one_per_day Demo.host Demo.morning
              Demo.attended_db) as (Hinv & Hkeep).
  split.
  - apply Hinv, attended_db_invariant.
  - apply Hkeep.
    exists "ATT-1", (Attendance.mk "EMP-1" "Half Day" "2023-05-02" "WT-0000"
                       submitted).
    split_and!; vm_compute; reflexivity.
Defined.

Lemma kept_duration_still_used_witness :
  (TimeLog.to_time
     (TimeLog.mk (Some "09:00:00") None (Some 1200) false (Some "Website")
        (Some "100%") None None) = None
   /\ Py.truthy_str
        (TimeLog.to_time
           (TimeLog.mk (Some "09:00:00") None (Some 1200) false
              (Some "Website") (Some "100%") None None)) = false)
  /\ TimeLog.duration
       (TimeLog.mk (Some "09:00:00") None (Some 1200) false (Some "Website")
          (Some "100%") None None)
     = Some 1200
  /\ WorkingTime.qualifies
       (TimeLog.mk (Some "09:00:00") None (Some 1200) false (Some "Website")
          (Some "100%") None None)
     = true.
Proof.
  destruct (@kept_duration_still_used Demo.host Demo.open_ended 0%nat
              (TimeLog.mk (Some "09:00:00") (Some "09:30:00") (Some 1200) false
                 (Some "Website") (Some "100%") None None)
              (TimeLog.mk (Some "09:00:00") None (Some 1200) false
                 (Some "Website") (Some "100%") None None))
    as (Hunset & Hkept); [reflexivity|vm_compute; reflexivity|].
  destruct Hkept as (Hdur & _ & _ & Hq); [reflexivity|].
  split; [|split].
  - apply (Hunset (TimeLog.mk None None None false None (Some "100%") None None));
      reflexivity.
  - exact Hdur.
  - exact Hq.
Defined.

(** * Further properties *)

(** ** More on the five-minute rounding *)

Section RoundingGrid.





End RoundingGrid.



(** ** More on the normalisation *)

Section RemoveSeconds.

Lemma zero_seconds_falsy (time : option string) :
  Py.truthy_str time = false -> WorkingTime.zero_seconds time = time.
Proof. intros Hf. unfold WorkingTime.zero_seconds. by rewrite Hf. Qed.

Lemma zero_seconds_truthy (time : option string) :
  Py.truthy_str time = true ->
  exists s, time = Some s
    /\ WorkingTime.zero_seconds time = Some (Py.drop_last 2 s +:+ "00").
Proof.
  intros Ht. unfold WorkingTime.zero_seconds. rewrite Ht.
  destruct time as [s|]; [|done]. by exists s.
Qed.

Lemma zero_seconds_keeps_truth (time : option string) :
  Py.truthy_str (WorkingTime.zero_seconds time) = Py.truthy_str time.
Proof.
  destruct (Py.truthy_str time) eqn:Ht.
  - destruct (zero_seconds_truthy time Ht) as (s & _ & ->). simpl.
    apply negb_true_iff, String.eqb_neq. intros Hnil.
    apply (f_equal String.length) in Hnil.
    rewrite string_length_app in Hnil. simpl in Hnil. lia.
  - by rewrite zero_seconds_falsy.
Qed.

Lemma zero_seconds_idempotent (time : option string) :
  WorkingTime.zero_seconds (WorkingTime.zero_seconds time)
  = WorkingTime.zero_seconds time.
Proof.
  destruct (Py.truthy_str time) eqn:Ht.
  - destruct (zero_seconds_truthy time Ht) as (s & _ & ->).
    apply (zero_seconds_app (Py.drop_last 2 s) "00"). reflexivity.
  - by rewrite !(zero_seconds_falsy time Ht).
Qed.

Lemma zero_seconds_short (s : string) :
  s <> "" -> (String.length s <= 2)%nat ->
  WorkingTime.zero_seconds (Some s) = Some "00".
Proof.
  intros Hne Hlen. unfold WorkingTime.zero_seconds. simpl.
  apply String.eqb_neq in Hne. rewrite Hne. simpl. unfold Py.drop_last.
  replace (String.length s - 2)%nat with 0%nat by lia.
  by destruct s.
Qed.

Lemma remove_seconds_of_log_idempotent (log : TimeLog.t) :
  WorkingTime.remove_seconds_of_log (WorkingTime.remove_seconds_of_log log)
  = WorkingTime.remove_seconds_of_log log.
Proof.
  unfold WorkingTime.remove_seconds_of_log. destruct log. simpl.
  unfold TimeLog.set_to_time, TimeLog.set_from_time. simpl.
  by rewrite !zero_seconds_idempotent.
Qed.

End RemoveSeconds.

(** X3.  remove_seconds is idempotent and keeps the number of logs; it
    leaves the duration of every log, and every from_time or to_time that
    is unset or empty, as it was, and a time that was set stays set; a
    time of one or two characters becomes "00". *)
Theorem remove_seconds_idempotent (self : WorkingTime.t) :
  WorkingTime.remove_seconds (WorkingTime.remove_seconds self)
  = WorkingTime.remove_seconds self
  /\ length (WorkingTime.time_logs (WorkingTime.remove_seconds self))
     = length (WorkingTime.time_logs self)
  /\ (forall i log log',
        WorkingTime.time_logs self !! i = Some log ->
        WorkingTime.time_logs (WorkingTime.remove_seconds self) !! i = Some log' ->
        TimeLog.duration log' = TimeLog.duration log
        /\ Py.truthy_str (TimeLog.from_time log')
           = Py.truthy_str (TimeLog.from_time log)
        /\ Py.truthy_str (TimeLog.to_time log')
           = Py.truthy_str (TimeLog.to_time log)
        /\ (Py.truthy_str (TimeLog.from_time log) = false ->
            TimeLog.from_time log' = TimeLog.from_time log)
        /\ (Py.truthy_str (TimeLog.to_time log) = false ->
            TimeLog.to_time log' = TimeLog.to_time log))
  /\ (forall s, s <> "" -> (String.length s <= 2)%nat ->
        WorkingTime.zero_seconds (Some s) = Some "00").
Proof.
  split_and!.
  - unfold WorkingTime.remove_seconds. destruct self as [n e d logs b w].
    simpl. unfold WorkingTime.set_time_logs. simpl. f_equal.
    rewrite <- list_fmap_compose. apply list_fmap_ext.
    intros i log _. apply remove_seconds_of_log_idempotent.
  - unfold WorkingTime.remove_seconds. simpl. apply length_fmap.
  - intros i log log' Hlog Hlog'. unfold WorkingTime.remove_seconds in Hlog'.
    simpl in Hlog'. rewrite list_lookup_fmap, Hlog in Hlog'.
    injection Hlog' as <-. unfold WorkingTime.remove_seconds_of_log. simpl.
    split_and!; [done|apply zero_seconds_keeps_truth
                 |apply zero_seconds_keeps_truth
                 |apply zero_seconds_falsy|apply zero_seconds_falsy].
  - apply zero_seconds_short.
Qed.

Section SetToTimes.

Lemma working_time_ext (a b : WorkingTime.t) :
  WorkingTime.name a = WorkingTime.name b ->
  WorkingTime.employee a = WorkingTime.employee b ->
  WorkingTime.date a = WorkingTime.date b ->
  WorkingTime.time_logs a = WorkingTime.time_logs b ->
  WorkingTime.break_time a = WorkingTime.break_time b ->
  WorkingTime.working_time a = WorkingTime.working_time b ->
  a = b.
Proof. destruct a, b. simpl. by intros -> -> -> -> -> ->. Qed.

Lemma set_to_times_frame (self : WorkingTime.t) :
  let st := WorkingTime.set_to_times self in
  WorkingTime.name st = WorkingTime.name self
  /\ WorkingTime.employee st = WorkingTime.employee self
  /\ WorkingTime.date st = WorkingTime.date self
  /\ WorkingTime.break_time st = WorkingTime.break_time self
  /\ WorkingTime.working_time st = WorkingTime.working_time self
  /\ length (WorkingTime.time_logs st) = length (WorkingTime.time_logs self).
Proof.
  destruct (set_to_times_prefix self (length (WorkingTime.time_logs self) - 1))
    as (Hn & He & Hd & Hb & Hw & _); [done|].
  destruct (set_to_times_spec self) as (_ & _ & _ & Hlook).
  split_and!; try done.
  apply (lookup_fmap_length
           (fun i log =>
              match WorkingTime.time_logs self !! (i + 1)%nat with
              | Some next => TimeLog.set_to_time (TimeLog.from_time next) log
              | None => log
              end)).
  intros i. rewrite Hlook.
  destruct (WorkingTime.time_logs self !! (i + 1)%nat),
           (WorkingTime.time_logs self !! i); done.
Qed.

End SetToTimes.

(** X4.  set_to_times keeps the number of logs, leaves the last log as
    it was and changes nothing but the to_time of the other logs; the
    to_time a log before the last one had is discarded: giving it any
    other value does not change the result. *)
Theorem set_to_times_keeps_all_but_to_time (self : WorkingTime.t) :
  let st := WorkingTime.set_to_times self in
  length (WorkingTime.time_logs st) = length (WorkingTime.time_logs self)
  /\ last (WorkingTime.time_logs st) = last (WorkingTime.time_logs self)
  /\ (forall i log,
        WorkingTime.time_logs self !! i = Some log ->
        exists log',
          WorkingTime.time_logs st !! i = Some log'
          /\ log' = TimeLog.set_to_time (TimeLog.to_time log') log)
  /\ (forall i v,
        (i + 1 < length (WorkingTime.time_logs self))%nat ->
        WorkingTime.set_to_times
          (WorkingTime.set_time_logs
             (alter (TimeLog.set_to_time v) i (WorkingTime.time_logs self))
             self)
        = st).
Proof.
  intros st.
  destruct (set_to_times_frame self) as (Hn & He & Hd & Hb & Hw & Hlen).
  destruct (set_to_times_spec self) as (_ & _ & _ & Hlook).
  fold st in Hn, He, Hd, Hb, Hw, Hlen, Hlook.
  split_and!.
  - done.
  - rewrite !last_lookup, Hlen, Hlook.
    rewrite (lookup_ge_None_2 _ (pred _ + 1)%nat) by lia. done.
  - intros i log Hlog. rewrite Hlook, Hlog.
    destruct (WorkingTime.time_logs self !! (i + 1)%nat) as [next|];
      eexists; (split; [done|]); by destruct log.
  - intros i v Hi.
    set (self' := WorkingTime.set_time_logs _ self).
    destruct (set_to_times_frame self') as (Hn' & He' & Hd' & Hb' & Hw' & _).
    destruct (set_to_times_spec self') as (_ & _ & _ & Hlook').
    apply working_time_ext;
      [by rewrite Hn', Hn|by rewrite He', He|by rewrite Hd', Hd|
      |by rewrite Hb', Hb|by rewrite Hw', Hw].
    apply list_eq. intros j. rewrite Hlook, Hlook'. subst self'.
    simpl.
    assert (forall k,
              TimeLog.from_time
                <$> alter (TimeLog.set_to_time v) i (WorkingTime.time_logs self) !! k
              = TimeLog.from_time <$> WorkingTime.time_logs self !! k) as Hfrom.
    { intros k. destruct (decide (i = k)) as [->|Hne].
      - rewrite list_lookup_alter_eq.
        by destruct (WorkingTime.time_logs self !! k).
      - by rewrite list_lookup_alter_ne. }
    pose proof (Hfrom (j + 1)%nat) as Hnext.
    destruct (decide (i = j)) as [->|Hne].
    + rewrite list_lookup_alter_eq.
      destruct (lookup_lt_is_Some_2 (WorkingTime.time_logs self) (j + 1)%nat Hi)
        as [next Hn1].
      rewrite Hn1 in Hnext |- *.
      destruct (alter _ j _ !! (j + 1)%nat) as [next'|]; [|done].
      injection Hnext as ->.
      by destruct (WorkingTime.time_logs self !! j) as [[]|].
    + rewrite (list_lookup_alter_ne _ _ i j) by done.
      destruct (alter _ i _ !! (j + 1)%nat) as [next'|],
               (WorkingTime.time_logs self !! (j + 1)%nat) as [next|];
        simplify_eq/=; try done.
      by rewrite Hnext.
Qed.

Section Idempotence.
Context {H : Host}.

Lemma chain_logs_lookup (logs : list TimeLog.t) : forall i,
  chain_logs logs !! i
  = (fun log => WorkingTime.compute_duration (chained log (logs !! (i + 1)%nat)))
      <$> logs !! i.
Proof.
  induction logs as [|log rest IH]; intros [|i]; simpl; try done.
  by destruct rest.
Qed.

Lemma before_validate_logs (doc : WorkingTime.t) :
  WorkingTime.time_logs (WorkingTime.before_validate doc)
  = chain_logs (WorkingTime.time_logs doc).
Proof.
  destruct (before_validate_spec doc) as (_ & _ & _ & _ & _ & Hlook).
  apply list_eq. intros i. by rewrite Hlook, chain_logs_lookup.
Qed.

Lemma compute_duration_idempotent (log : TimeLog.t) :
  WorkingTime.compute_duration (WorkingTime.compute_duration log)
  = WorkingTime.compute_duration log.
Proof.
  unfold WorkingTime.compute_duration.
  destruct (Py.truthy_str (TimeLog.from_time log)
            && Py.truthy_str (TimeLog.to_time log)) eqn:Hg; simpl.
  - by rewrite Hg.
  - by rewrite Hg.
Qed.

(** The accumulator of set_durations is a function of the visited logs
    after compute_duration. *)
Lemma visit_duration_computed (l : list TimeLog.t) : forall acc,
  foldl WorkingTime.visit_duration acc l
  = foldl WorkingTime.visit_duration acc (WorkingTime.compute_duration <$> l).
Proof.
  induction l as [|log l IH]; intros acc; simpl; [done|].
  rewrite IH. f_equal. unfold WorkingTime.visit_duration.
  by rewrite compute_duration_idempotent.
Qed.

Lemma set_durations_ext (a b : WorkingTime.t) :
  WorkingTime.name a = WorkingTime.name b ->
  WorkingTime.employee a = WorkingTime.employee b ->
  WorkingTime.date a = WorkingTime.date b ->
  WorkingTime.compute_duration <$> WorkingTime.time_logs a
  = WorkingTime.compute_duration <$> WorkingTime.time_logs b ->
  WorkingTime.set_durations a = WorkingTime.set_durations b.
Proof.
  intros Hn He Hd Hlogs. unfold WorkingTime.set_durations.
  rewrite (visit_duration_computed (WorkingTime.time_logs a)),
          (visit_duration_computed (WorkingTime.time_logs b)), Hlogs.
  f_equal. destruct a, b. simpl in *. by subst.
Qed.

Lemma chained_of_normalised (log : TimeLog.t) (next : option TimeLog.t)
    (next2 : option TimeLog.t) :
  chained (WorkingTime.compute_duration (chained log next))
          ((fun n => WorkingTime.compute_duration (chained n next2)) <$> next)
  = WorkingTime.compute_duration (chained log next).
Proof.
  destruct (compute_duration_fields (chained log next)) as (Hf & Ht & _).
  unfold chained at 1. rewrite Hf, Ht.
  assert (match (fun n => WorkingTime.compute_duration (chained n next2)) <$> next with
          | Some next' => WorkingTime.zero_seconds (TimeLog.from_time next')
          | None => WorkingTime.zero_seconds (TimeLog.to_time (chained log next))
          end = TimeLog.to_time (chained log next)) as ->.
  { destruct next as [n|]; simpl.
    - destruct (compute_duration_fields (chained n next2)) as (-> & _).
      simpl. apply zero_seconds_idempotent.
    - apply zero_seconds_idempotent. }
  simpl. rewrite zero_seconds_idempotent.
  pose proof Hf as Hf'. pose proof Ht as Ht'. simpl in Hf', Ht'.
  rewrite <- Hf', <- Ht'.
  by destruct (WorkingTime.compute_duration (chained log next)).
Qed.

Lemma before_validate_ext (a b : WorkingTime.t) :
  WorkingTime.name a = WorkingTime.name b ->
  WorkingTime.employee a = WorkingTime.employee b ->
  WorkingTime.date a = WorkingTime.date b ->
  WorkingTime.time_logs a = WorkingTime.time_logs b ->
  WorkingTime.before_validate a = WorkingTime.before_validate b.
Proof.
  intros Hn He Hd Hlogs. unfold WorkingTime.before_validate.
  destruct (set_to_times_frame (WorkingTime.remove_seconds a))
    as (Hna & Hea & Hda & _).
  destruct (set_to_times_frame (WorkingTime.remove_seconds b))
    as (Hnb & Heb & Hdb & _).
  simpl in *.
  apply set_durations_ext; [congruence..|].
  pose proof (before_validate_logs a) as Ha.
  pose proof (before_validate_logs b) as Hb.
  unfold WorkingTime.before_validate in Ha, Hb.
  destruct (set_durations_spec
              (WorkingTime.set_to_times (WorkingTime.remove_seconds a)))
    as (_ & _ & _ & Hla & _).
  destruct (set_durations_spec
              (WorkingTime.set_to_times (WorkingTime.remove_seconds b)))
    as (_ & _ & _ & Hlb & _).
  rewrite <- Hla, <- Hlb, Ha, Hb. by rewrite Hlogs.
Qed.

Lemma chain_logs_idempotent (logs : list TimeLog.t) :
  chain_logs (chain_logs logs) = chain_logs logs.
Proof.
  apply list_eq. intros i. rewrite chain_logs_lookup.
  rewrite (chain_logs_lookup logs (i + 1)), (chain_logs_lookup logs i).
  destruct (logs !! i) as [log|]; [|done]. simpl. f_equal.
  by rewrite chained_of_normalised, compute_duration_idempotent.
Qed.

Lemma working_time_ext_normalised (doc : WorkingTime.t) :
  WorkingTime.before_validate (WorkingTime.before_validate doc)
  = WorkingTime.before_validate doc.
Proof.
  destruct (before_validate_spec doc) as (Hn & He & Hd & Hw & Hb & _).
  destruct (before_validate_spec (WorkingTime.before_validate doc))
    as (Hn2 & He2 & Hd2 & _).
  pose proof (before_validate_logs (WorkingTime.before_validate doc)) as Hlogs2.
  rewrite (before_validate_logs doc), chain_logs_idempotent in Hlogs2.
  rewrite <- (before_validate_logs doc) in Hlogs2.
  unfold WorkingTime.before_validate at 1.
  unfold WorkingTime.before_validate at 1 in Hlogs2.
  destruct (set_durations_spec
              (WorkingTime.set_to_times
                 (WorkingTime.remove_seconds (WorkingTime.before_validate doc))))
    as (_ & _ & _ & Hl2 & _).
  rewrite Hlogs2 in Hl2.
  destruct (set_to_times_frame
              (WorkingTime.remove_seconds (WorkingTime.before_validate doc)))
    as (Hn3 & He3 & Hd3 & _).
  simpl in Hn3, He3, Hd3.
  transitivity (WorkingTime.set_durations
                  (WorkingTime.set_to_times (WorkingTime.remove_seconds doc)));
    [|done].
  destruct (set_to_times_frame (WorkingTime.remove_seconds doc))
    as (Hn4 & He4 & Hd4 & _).
  simpl in Hn4, He4, Hd4.
  apply set_durations_ext; [congruence..|].
  rewrite <- Hl2.
  destruct (set_durations_spec
              (WorkingTime.set_to_times (WorkingTime.remove_seconds doc)))
    as (_ & _ & _ & Hl & _).
  by rewrite <- Hl.
Qed.

End Idempotence.

(** X5.  before_validate is idempotent: normalising a normalised
    document changes nothing.  Its result does not depend on the
    break_time and working_time stored in the document it is given. *)
Theorem before_validate_idempotent {H : Host} (doc : WorkingTime.t) (b w : Q) :
  WorkingTime.before_validate (WorkingTime.before_validate doc)
  = WorkingTime.before_validate doc
  /\ WorkingTime.before_validate
       (WorkingTime.set_break_time b (WorkingTime.set_working_time w doc))
     = WorkingTime.before_validate doc.
Proof.
  destruct (before_validate_spec doc) as (Hn & He & Hd & _).
  split.
  - apply working_time_ext_normalised.
  - by apply before_validate_ext.
Qed.

(** ** The totals of a day *)

Section Totals.
Context {H : Host}.

Lemma seconds_of_nonneg (break : bool) (logs : list TimeLog.t) :
  (forall log d, log ∈ logs -> TimeLog.duration log = Some d -> 0 <= d) ->
  0 <= seconds_of break logs.
Proof.
  induction logs as [|log logs IH]; intros Hall; simpl; [done|].
  assert (0 <= seconds_of break logs) as Hrest.
  { apply IH. intros log' d Hin. apply Hall. by right. }
  destruct (Bool.eqb (TimeLog.is_break log) break); [|done].
  destruct (TimeLog.duration log) as [d|] eqn:Hd; simpl.
  - assert (0 <= d) by (apply (Hall log d); [by left|done]). lra.
  - lra.
Qed.

Lemma seconds_of_other_kind (break : bool) (logs : list TimeLog.t) :
  Forall (fun log => TimeLog.is_break log = negb break) logs ->
  seconds_of break logs = 0.
Proof.
  induction 1 as [|log logs Hk _ IH]; simpl; [done|].
  rewrite Hk. by destruct break.
Qed.

Lemma seconds_of_both (logs : list TimeLog.t) :
  seconds_of false logs + seconds_of true logs
  == foldr (fun log total => default 0 (TimeLog.duration log) + total) 0 logs.
Proof.
  induction logs as [|log logs IH]; simpl; [done|].
  rewrite <- IH. destruct (TimeLog.is_break log); simpl; ring.
Qed.

End Totals.

(** X6.  After before_validate, working_time and break_time together are
    the sum of the durations of all logs; both are non-negative when
    validate accepts the document; working_time is 0 when every log is a
    break, and break_time is 0 when none is. *)
Theorem totals_cover_all_durations {H : Host} (doc : WorkingTime.t) :
  let doc' := WorkingTime.before_validate doc in
  WorkingTime.working_time doc' + WorkingTime.break_time doc'
  == foldr (fun log total => default 0 (TimeLog.duration log) + total) 0
           (WorkingTime.time_logs doc')
  /\ (WorkingTime.validate doc' = Ok tt ->
      0 <= WorkingTime.working_time doc' /\ 0 <= WorkingTime.break_time doc')
  /\ (Forall (fun log => TimeLog.is_break log = true) (WorkingTime.time_logs doc) ->
      WorkingTime.working_time doc' == 0)
  /\ (Forall (fun log => TimeLog.is_break log = false) (WorkingTime.time_logs doc) ->
      WorkingTime.break_time doc' == 0).
Proof.
  intros doc'.
  destruct (before_validate_spec doc) as (_ & _ & _ & Hw & Hb & Hlook).
  fold doc' in Hw, Hb, Hlook.
  assert (forall b,
            Forall (fun log => TimeLog.is_break log = b) (WorkingTime.time_logs doc) ->
            Forall (fun log => TimeLog.is_break log = b) (WorkingTime.time_logs doc'))
    as Hkind.
  { intros b Hall. apply Forall_lookup. intros i log' Hi.
    rewrite Hlook in Hi.
    destruct (WorkingTime.time_logs doc !! i) as [log|] eqn:Hl; [|done].
    injection Hi as <-.
    destruct (compute_duration_fields
                (chained log (WorkingTime.time_logs doc !! (i + 1)%nat)))
      as (_ & _ & -> & _).
    simpl. exact (Forall_lookup_1 _ _ _ _ Hall Hl). }
  split_and!.
  - rewrite Hw, Hb. apply seconds_of_both.
  - intros Hval. apply validate_ok_iff in Hval.
    assert (forall log d,
              log ∈ WorkingTime.time_logs doc' ->
              TimeLog.duration log = Some d -> 0 <= d) as Hall.
    { intros log d Hin Hd. destruct (Qlt_le_dec d 0) as [Hneg|Hpos]; [|done].
      destruct Hval. by exists log, d. }
    rewrite Hw, Hb. split; by apply seconds_of_nonneg.
  - intros Hall. rewrite Hw.
    by rewrite (seconds_of_other_kind false) by by apply Hkind.
  - intros Hall. rewrite Hb.
    by rewrite (seconds_of_other_kind true) by by apply Hkind.
Qed.

Section Span.
Context {H : Host}.

Lemma chain_logs_span (logs : list TimeLog.t) : forall first last_log,
  (forall a b c,
     time_diff_in_seconds a b + time_diff_in_seconds b c
     == time_diff_in_seconds a c) ->
  head logs = Some first ->
  last logs = Some last_log ->
  Forall (fun log => Py.truthy_str (TimeLog.from_time log) = true) logs ->
  Py.truthy_str (TimeLog.to_time last_log) = true ->
  foldr (fun log total => default 0 (TimeLog.duration log) + total) 0
        (chain_logs logs)
  == time_diff_in_seconds
       (Py.fmt (WorkingTime.zero_seconds (TimeLog.to_time last_log)))
       (Py.fmt (WorkingTime.zero_seconds (TimeLog.from_time first))).
Proof.
  induction logs as [|x rest IH]; intros first last_log Hadd Hhead Hlast Hfrom Hto;
    [done|].
  injection Hhead as <-. apply Forall_cons in Hfrom as [Hx Hrest].
  destruct rest as [|y rest'].
  - injection Hlast as <-. simpl.
    rewrite compute_duration_set; simpl;
      [|by rewrite zero_seconds_keeps_truth..].
    ring.
  - change (last (x :: y :: rest')) with (last (y :: rest')) in Hlast.
    change (chain_logs (x :: y :: rest'))
      with (WorkingTime.compute_duration (chained x (Some y))
            :: chain_logs (y :: rest')).
    cbn [foldr].
    rewrite (IH y last_log Hadd eq_refl Hlast Hrest Hto).
    apply Forall_cons in Hrest as [Hy _].
    rewrite compute_duration_set; simpl;
      [|by rewrite zero_seconds_keeps_truth..].
    rewrite Qplus_comm. apply Hadd.
Qed.

End Span.

(** X7.  When time differences add up
    ([diff(a, b) + diff(b, c) = diff(a, c)]), every log has a from_time
    and the last log has a to_time, then after before_validate
    working_time and break_time together are the time from the first
    from_time to the last to_time, both taken without their seconds. *)
Theorem totals_span_the_day {H : Host} (doc : WorkingTime.t)
    (first last_log : TimeLog.t) :
  (forall a b c,
     time_diff_in_seconds a b + time_diff_in_seconds b c
     == time_diff_in_seconds a c) ->
  head (WorkingTime.time_logs doc) = Some first ->
  last (WorkingTime.time_logs doc) = Some last_log ->
  Forall (fun log => Py.truthy_str (TimeLog.from_time log) = true)
         (WorkingTime.time_logs doc) ->
  Py.truthy_str (TimeLog.to_time last_log) = true ->
  WorkingTime.working_time (WorkingTime.before_validate doc)
  + WorkingTime.break_time (WorkingTime.before_validate doc)
  == time_diff_in_seconds
       (Py.fmt (WorkingTime.zero_seconds (TimeLog.to_time last_log)))
       (Py.fmt (WorkingTime.zero_seconds (TimeLog.from_time first))).
Proof.
  intros Hadd Hhead Hlast Hfrom Hto.
  destruct (before_validate_spec doc) as (_ & _ & _ & -> & -> & _).
  rewrite seconds_of_both, before_validate_logs. by apply chain_logs_span.
Qed.

(** ** More on attendance *)

Section AttendanceAgain.
Context {H : Host}.

Lemma create_attendance_settles (self : WorkingTime.t) (db : Db) :
  (WorkingTime.create_attendance self db).1 = Ok tt ->
  has_attendance (WorkingTime.create_attendance self db).2
    (WorkingTime.employee self) (WorkingTime.date self).
Proof.
  destruct (create_attendance_cases self db)
    as [[Hhas ->]|[(_ & -> & _)|(_ & n & _ & ->)]]; simpl; intros Hok.
  - done.
  - done.
  - exists n, (attendance_of self). split_and!; [|done..].
    simpl. apply lookup_insert_eq.
Qed.

End AttendanceAgain.

(** X8.  The status of the Attendance created for a normalised document
    looks at the seconds of the logs that are not breaks only: it is
    "Present" exactly when they exceed 13455, and a document whose logs
    are all breaks (or that has no log) gets "Half Day".  The Attendance
    refers back to the WorkingTime by name. *)
Theorem attendance_counts_work_only {H : Host} (doc : WorkingTime.t) (db : Db) :
  autoname_fresh H ->
  ~ has_attendance db (WorkingTime.employee doc) (WorkingTime.date doc) ->
  exists n a,
    WorkingTime.create_attendance (WorkingTime.before_validate doc) db
    = (Ok tt, set_attendances (fun _ => <[n := a]> (attendances db)) db)
    /\ Attendance.working_time a = WorkingTime.name doc
    /\ (Attendance.status a = "Present"
        <-> 13455 < seconds_of false
                      (WorkingTime.time_logs (WorkingTime.before_validate doc)))
    /\ (Forall (fun log => TimeLog.is_break log = true) (WorkingTime.time_logs doc) ->
        Attendance.status a = "Half Day").
Proof.
  intros Hfresh Hnone.
  set (doc' := WorkingTime.before_validate doc).
  destruct (before_validate_spec doc) as (Hn & He & Hd & Hw & _ & Hlook).
  fold doc' in Hn, He, Hd, Hw, Hlook.
  destruct (create_attendance_fresh doc' db Hfresh) as (n & Hfree & Hrun).
  { by rewrite He, Hd. }
  exists n, (attendance_of doc'). split_and!; try done.
  - simpl. rewrite attendance_status_present. by rewrite Hw.
  - intros Hall. simpl. apply attendance_status_half_day. rewrite Hw.
    rewrite (seconds_of_other_kind false); [easy|].
    apply Forall_lookup. intros i log' Hi. rewrite Hlook in Hi.
    destruct (WorkingTime.time_logs doc !! i) as [log|] eqn:Hl; [|done].
    injection Hi as <-.
    destruct (compute_duration_fields
                (chained log (WorkingTime.time_logs doc !! (i + 1)%nat)))
      as (_ & _ & -> & _).
    simpl. exact (Forall_lookup_1 _ _ _ _ Hall Hl).
Qed.

(** X9.  create_attendance is idempotent: run again on the database it
    left, it changes nothing, and it returns normally if the first run
    did. *)
Theorem create_attendance_idempotent {H : Host} (self : WorkingTime.t) (db : Db) :
  let db1 := (WorkingTime.create_attendance self db).2 in
  (WorkingTime.create_attendance self db1).2 = db1
  /\ ((WorkingTime.create_attendance self db).1 = Ok tt ->
      WorkingTime.create_attendance self db1 = (Ok tt, db1)).
Proof.
  intros db1.
  assert ((WorkingTime.create_attendance self db).1 = Ok tt ->
          WorkingTime.create_attendance self db1 = (Ok tt, db1)) as Hok.
  { intros Hfirst. apply create_attendance_existing.
    by apply create_attendance_settles. }
  split; [|done].
  destruct (WorkingTime.create_attendance self db) as [[[]|e] db2] eqn:Hrun.
  - by rewrite Hok.
  - destruct (create_attendance_cases self db)
      as [[_ Heq]|[(_ & Heq & _)|(_ & n & _ & Heq)]];
      rewrite Hrun in Heq; simplify_eq.
    subst db1. simpl. by rewrite Hrun.
Qed.

(** ** More on the Timesheet table *)

Section Frame.
Context {H : Host}.

Lemma adds_timesheets_lookup new db db' n :
  adds_timesheets new db db' ->
  timesheets db' !! n
  = match timesheets db !! n with
    | Some ts => Some ts
    | None => (list_to_map new : gmap string Timesheet.t) !! n
    end.
Proof.
  intros (Hnodup & Hnew & -> & _).
  destruct (timesheets db !! n) as [ts|] eqn:Hold.
  - apply lookup_union_Some_raw. right. split; [|done].
    apply not_elem_of_list_to_map_1. intros Hin.
    specialize (Hnew n Hin). congruence.
  - destruct (list_to_map new !! n) as [ts|] eqn:Hin.
    + apply lookup_union_Some_raw. by left.
    + by apply lookup_union_None.
Qed.

Lemma working_time_run (self : WorkingTime.t) (db : Db) :
  exists done new,
    done `prefix_of` filter (fun log => WorkingTime.qualifies log = true)
                            (WorkingTime.time_logs self)
    /\ ((WorkingTime.create_timesheets self db).1 = Ok tt ->
        done = filter (fun log => WorkingTime.qualifies log = true)
                      (WorkingTime.time_logs self))
    /\ Forall2 (working_time_sheet self) done new.*2
    /\ adds_timesheets new db (WorkingTime.create_timesheets self db).2.
Proof.
  destruct (WorkingTime.create_timesheets self db) as [r db'] eqn:Hrun.
  exact (timesheet_loop WorkingTime.qualifies (WorkingTime.visit_log self)
           (working_time_sheet self) (working_time_visit_step self)
           _ _ _ _ Hrun).
Qed.

Lemma freelancer_run (self : FreelancerTime.t) (db : Db) :
  exists done new,
    done `prefix_of` filter (fun log => FreelancerTime.qualifies log = true)
                            (FreelancerTime.time_logs self)
    /\ ((FreelancerTime.create_timesheets self db).1 = Ok tt ->
        done = filter (fun log => FreelancerTime.qualifies log = true)
                      (FreelancerTime.time_logs self))
    /\ Forall2 (freelancer_time_sheet self) done new.*2
    /\ adds_timesheets new db (FreelancerTime.create_timesheets self db).2.
Proof.
  destruct (FreelancerTime.create_timesheets self db) as [r db'] eqn:Hrun.
  exact (timesheet_loop FreelancerTime.qualifies (FreelancerTime.visit_log self)
           (freelancer_time_sheet self) (freelancer_visit_step self)
           _ _ _ _ Hrun).
Qed.

Lemma on_submit_timesheets (self : WorkingTime.t) (db : Db) :
  exists db1,
    timesheets db1 = timesheets db
    /\ (timesheets (WorkingTime.on_submit self db).2 = timesheets db
        \/ timesheets (WorkingTime.on_submit self db).2
           = timesheets (WorkingTime.create_timesheets self db1).2).
Proof.
  unfold WorkingTime.on_submit, bind.
  pose proof (create_attendance_timesheets self db) as Hsame.
  destruct (WorkingTime.create_attendance self db) as [[[]|e] db1];
    simpl in Hsame; exists db1; (split; [done|]).
  - by right.
  - by left.
Qed.

Lemma on_submit_keeps_timesheets (self : WorkingTime.t) (db : Db) n ts :
  timesheets db !! n = Some ts ->
  timesheets (WorkingTime.on_submit self db).2 !! n = Some ts.
Proof.
  intros Hold. destruct (on_submit_timesheets self db) as (db1 & Hsame & [->| ->]);
    [done|].
  destruct (working_time_run self db1) as (done & new & _ & _ & _ & Hadds).
  rewrite (adds_timesheets_lookup _ _ _ n Hadds), Hsame, Hold. done.
Qed.

Lemma freelancer_sheet_linked (self : FreelancerTime.t) log ts :
  freelancer_time_sheet self log ts ->
  FreelancerTime.is_linked_draft self ts = true.
Proof.
  intros (d & p & c & r & s & desc & _ & _ & _ & _ & ->).
  unfold FreelancerTime.is_linked_draft. simpl.
  by rewrite !bool_decide_eq_true_2.
Qed.

End Frame.

(** X10.  on_submit of WorkingTime never changes or removes a Timesheet
    that was there; every Timesheet it adds is a draft of one billable
    line with activity type "Default", refers back to the employee and to
    the WorkingTime by name and to no FreelancerTime, has the project of
    its line as parent project, and carries each rate twice (base and
    applied), the costing rate being the employee's activity cost. *)
Theorem working_time_submit_frame {H : Host} (wt : WorkingTime.t) (db : Db)
    (n : string) (ts : Timesheet.t) :
  (timesheets db !! n = Some ts ->
   timesheets (WorkingTime.on_submit wt db).2 !! n = Some ts)
  /\ (timesheets db !! n = None ->
      timesheets (WorkingTime.on_submit wt db).2 !! n = Some ts ->
      Timesheet.docstatus ts = draft
      /\ Timesheet.employee ts = Some (WorkingTime.employee wt)
      /\ Timesheet.working_time ts = Some (WorkingTime.name wt)
      /\ Timesheet.freelancer_time ts = None
      /\ exists line,
           Timesheet.time_logs ts = [line]
           /\ TimesheetDetail.is_billable line = 1%Z
           /\ TimesheetDetail.activity_type line = "Default"
           /\ TimesheetDetail.project line = Timesheet.parent_project ts
           /\ TimesheetDetail.base_billing_rate line
              = TimesheetDetail.billing_rate line
           /\ TimesheetDetail.base_costing_rate line
              = TimesheetDetail.costing_rate line
           /\ TimesheetDetail.costing_rate line
              = get_costing_rate (WorkingTime.employee wt)).
Proof.
  split.
  - apply on_submit_keeps_timesheets.
  - intros Hold Hnew.
    destruct (on_submit_created wt db n ts Hnew Hold)
      as (log & _ & _ & (d & p & pct & c & r & s & desc & _ & _ & _ & _ & _ & ->)).
    split_and!; try done. by eexists.
Qed.

(** X11.  on_submit of FreelancerTime leaves the Attendance table and
    every Timesheet that was there untouched; every Timesheet it adds is a
    draft of one billable line with activity type "Default", refers back
    to the FreelancerTime by name and to no employee or WorkingTime, and
    carries each rate twice, the costing rate being the owner's freelancer
    rate at the date of a log of the record. *)
Theorem freelancer_submit_frame {H : Host} (ft : FreelancerTime.t) (db : Db)
    (n : string) (ts : Timesheet.t) :
  attendances (FreelancerTime.on_submit ft db).2 = attendances db
  /\ (timesheets db !! n = Some ts ->
      timesheets (FreelancerTime.on_submit ft db).2 !! n = Some ts)
  /\ (timesheets db !! n = None ->
      timesheets (FreelancerTime.on_submit ft db).2 !! n = Some ts ->
      Timesheet.docstatus ts = draft
      /\ Timesheet.freelancer_time ts = Some (FreelancerTime.name ft)
      /\ Timesheet.employee ts = None
      /\ Timesheet.working_time ts = None
      /\ exists log line,
           log ∈ FreelancerTime.time_logs ft
           /\ Timesheet.time_logs ts = [line]
           /\ TimesheetDetail.is_billable line = 1%Z
           /\ TimesheetDetail.activity_type line = "Default"
           /\ TimesheetDetail.project line = Timesheet.parent_project ts
           /\ TimesheetDetail.base_billing_rate line
              = TimesheetDetail.billing_rate line
           /\ TimesheetDetail.base_costing_rate line
              = TimesheetDetail.costing_rate line
           /\ TimesheetDetail.costing_rate line
              = FreelancerTime.get_rate_and_currency
                  (FreelancerTime.owner ft) (FreelancerLog.date log)).
Proof.
  destruct (freelancer_run ft db) as (done & new & _ & _ & _ & Hadds).
  split_and!.
  - by destruct Hadds as (_ & _ & _ & ?).
  - intros Hold. unfold FreelancerTime.on_submit.
    by rewrite (adds_timesheets_lookup _ _ _ n Hadds), Hold.
  - intros Hold Hnew.
    destruct (freelancer_created ft db n ts Hnew Hold)
      as (log & Hin & _ & (d & p & c & r & s & desc & _ & _ & _ & _ & ->)).
    split_and!; try done. by eexists log, _.
Qed.

(** X12.  With fresh document names, create_timesheets returns normally
    if and only if, for every log that passes the guard, the billable
    percentage parses (WorkingTime only), the project is found and the
    description can be built. *)
Theorem create_timesheets_succeeds_iff_resolved {H : Host}
    (wt : WorkingTime.t) (ft : FreelancerTime.t) (db : Db) :
  autoname_fresh H ->
  ((WorkingTime.create_timesheets wt db).1 = Ok tt
   <-> forall log, log ∈ WorkingTime.time_logs wt ->
         WorkingTime.qualifies log = true -> working_time_log_resolves log)
  /\ ((FreelancerTime.create_timesheets ft db).1 = Ok tt
      <-> forall log, log ∈ FreelancerTime.time_logs ft ->
            FreelancerTime.qualifies log = true -> freelancer_log_resolves log).
Proof.
  intros Hfresh. split; split.
  - intros Hok log Hin Hq.
    destruct (working_time_run wt db) as (done & new & _ & Hall & Hsheets & _).
    rewrite (Hall Hok) in Hsheets.
    assert (log ∈ filter (fun log => WorkingTime.qualifies log = true)
                         (WorkingTime.time_logs wt)) as Hf
      by by apply list_elem_of_filter.
    apply list_elem_of_lookup in Hf as [i Hi].
    destruct (Forall2_lookup_l _ _ _ _ _ Hsheets Hi)
      as (ts & _ & (d & p & pct & c & r & s & desc & _ & Hp & Hpct & Hproj & Hdesc & _)).
    by exists p, pct, c, r, s, desc.
  - intros Hres.
    destruct (working_time_create_timesheets_ok wt db Hfresh Hres)
      as (new & db' & -> & _). done.
  - intros Hok log Hin Hq.
    destruct (freelancer_run ft db) as (done & new & _ & Hall & Hsheets & _).
    rewrite (Hall Hok) in Hsheets.
    assert (log ∈ filter (fun log => FreelancerTime.qualifies log = true)
                         (FreelancerTime.time_logs ft)) as Hf
      by by apply list_elem_of_filter.
    apply list_elem_of_lookup in Hf as [i Hi].
    destruct (Forall2_lookup_l _ _ _ _ _ Hsheets Hi)
      as (ts & _ & (d & p & c & r & s & desc & _ & Hp & Hproj & Hdesc & _)).
    by exists p, c, r, s, desc.
  - intros Hres.
    destruct (freelancer_create_timesheets_ok ft db Hfresh Hres)
      as (new & db' & -> & _). done.
Qed.

(** X13.  Cancelling a FreelancerTime after submitting it removes every
    Timesheet the submission added, whether the submission completed or
    raised midway: the Timesheet table is the one a cancellation without
    the submission gives, and the Attendance table is the original one.
    When no draft was linked to the record before, the database is back
    to what it was. *)
Theorem freelancer_cancel_undoes_submit {H : Host} (ft : FreelancerTime.t) (db : Db) :
  let db1 := (FreelancerTime.on_submit ft db).2 in
  timesheets (FreelancerTime.on_cancel ft db1).2
  = timesheets (FreelancerTime.on_cancel ft db).2
  /\ attendances (FreelancerTime.on_cancel ft db1).2 = attendances db
  /\ ((forall n ts, timesheets db !! n = Some ts ->
         FreelancerTime.is_linked_draft ft ts = false) ->
      FreelancerTime.on_cancel ft db1 = (Ok tt, db)).
Proof.
  intros db1.
  destruct (freelancer_run ft db) as (done & new & _ & _ & Hsheets & Hadds).
  fold (FreelancerTime.on_submit ft db) in Hadds. fold db1 in Hadds.
  destruct (delete_draft_timesheets_spec ft db1) as (db2 & Hrun2 & Hatt2 & Hlook2).
  destruct (delete_draft_timesheets_spec ft db) as (db0 & Hrun0 & Hatt0 & Hlook0).
  unfold FreelancerTime.on_cancel. rewrite Hrun2, Hrun0. simpl.
  assert (timesheets db2 = timesheets db0) as Htables.
  { apply map_eq. intros n. rewrite Hlook2, Hlook0.
    rewrite (adds_timesheets_lookup _ _ _ n Hadds).
    destruct (timesheets db !! n) as [ts|] eqn:Hold; [done|].
    destruct (list_to_map new !! n) as [ts|] eqn:Hin; [|done].
    apply elem_of_list_to_map_2 in Hin.
    assert (ts ∈ new.*2) as Hts by (apply list_elem_of_fmap; by exists (n, ts)).
    apply list_elem_of_lookup in Hts as [i Hi].
    destruct (Forall2_lookup_r _ _ _ _ _ Hsheets Hi) as (log & _ & Hsheet).
    by rewrite (freelancer_sheet_linked ft log ts Hsheet). }
  assert (attendances db2 = attendances db) as Hatts.
  { rewrite Hatt2. by destruct Hadds as (_ & _ & _ & ?). }
  split_and!; try done.
  intros Hnone. f_equal. destruct db as [att tss], db2 as [att2 tss2].
  simpl in *. f_equal; [done|]. rewrite Htables. apply map_eq. intros n.
  rewrite Hlook0. destruct (tss !! n) as [ts|] eqn:Hts; [|done].
  by rewrite (Hnone n ts Hts).
Qed.

(** X14.  Cancelling a FreelancerTime twice is the same as cancelling it
    once, and a cancellation never removes a Timesheet that on_submit of a
    WorkingTime added. *)
Theorem cancel_idempotent_and_spares_working_time {H : Host}
    (ft : FreelancerTime.t) (wt : WorkingTime.t) (db : Db)
    (n : string) (ts : Timesheet.t) :
  FreelancerTime.on_cancel ft (FreelancerTime.on_cancel ft db).2
  = (Ok tt, (FreelancerTime.on_cancel ft db).2)
  /\ (timesheets db !! n = None ->
      timesheets (WorkingTime.on_submit wt db).2 !! n = Some ts ->
      timesheets (FreelancerTime.on_cancel ft (WorkingTime.on_submit wt db).2).2 !! n
      = Some ts).
Proof.
  split.
  - destruct (delete_draft_timesheets_spec ft db) as (db1 & Hrun & Hatt & Hlook).
    unfold FreelancerTime.on_cancel. rewrite Hrun. simpl.
    destruct (delete_draft_timesheets_spec ft db1) as (db2 & -> & Hatt2 & Hlook2).
    f_equal. destruct db1 as [att1 tss1], db2 as [att2 tss2]. simpl in *.
    f_equal; [done|]. apply map_eq. intros m. rewrite Hlook2, Hlook.
    destruct (timesheets db !! m) as [ts'|]; [|done].
    destruct (FreelancerTime.is_linked_draft ft ts') eqn:Hk; [done|].
    by rewrite Hk.
  - intros Hold Hnew.
    destruct (on_submit_created wt db n ts Hnew Hold)
      as (log & _ & _ & (d & p & pct & c & r & s & desc & _ & _ & _ & _ & _ & Hts)).
    destruct (delete_draft_timesheets_spec ft (WorkingTime.on_submit wt db).2)
      as (db2 & Hrun & _ & Hlook).
    unfold FreelancerTime.on_cancel. rewrite Hrun. simpl.
    rewrite Hlook, Hnew. by rewrite Hts.
Qed.

(** ** The description formatter *)

Section Description.
Context {H : Host}.

Lemma append_nonempty_r (s1 s2 : string) : s2 <> "" -> s1 +:+ s2 <> "".
Proof.
  intros Hne Hnil. apply (f_equal String.length) in Hnil.
  rewrite string_length_app in Hnil. destruct s2; [done|]. simpl in Hnil. lia.
Qed.

Lemma truthy_str_fmt (o : option string) :
  Py.truthy_str o = true -> Py.fmt o <> "".
Proof. intros (s & -> & Hne)%truthy_str_spec. done. Qed.

End Description.

(** X15.  get_description raises exactly when there is a key and fetching
    the issue summary raises, with the same exception; a description it
    returns is never empty; without a key it is the note, or "-" when
    there is no note.  get_jira_issue_url gives no URL exactly when there
    is no key. *)
Theorem description_fails_only_with_tracker {H : Host}
    (jira_site key note : option string) :
  (forall e,
     get_description jira_site key note = Raise e
     <-> Py.truthy_str key = true
         /\ get_issue_summary jira_site (Py.fmt key) = Raise e)
  /\ (forall d, get_description jira_site key note = Ok d -> d <> "")
  /\ (get_jira_issue_url jira_site key = None <-> Py.truthy_str key = false)
  /\ (Py.truthy_str key = false ->
      get_description jira_site key note
      = Ok (if Py.truthy_str note then Py.fmt note else "-")).
Proof.
  unfold get_description, get_jira_issue_url.
  destruct (Py.truthy_str key) eqn:Hk.
  - destruct (get_issue_summary jira_site (Py.fmt key)) as [summary|e0] eqn:Hs.
    + split_and!.
      * intros e. split; [by destruct (Py.truthy_str note)|by intros [_ ?]].
      * intros d Hd.
        destruct (Py.truthy_str note); injection Hd as <-;
          by apply append_nonempty_r.
      * done.
      * done.
    + split_and!.
      * intros e. split; [by intros [= ->]|by intros [_ [= ->]]].
      * done.
      * done.
      * done.
  - split_and!.
    + intros e. split; [done|by intros [? _]].
    + intros d [= <-]. destruct (Py.truthy_str note) eqn:Hn; [|done].
      by apply truthy_str_fmt.
    + done.
    + done.
Qed.

(** ** The further properties on concrete documents *)

Section SampleHost.

Lemma demo_time_diff_additive (a b c : string) :
  @time_diff_in_seconds Demo.host a b + @time_diff_in_seconds Demo.host b c
  == @time_diff_in_seconds Demo.host a c.
Proof.
  simpl. rewrite <- inject_Z_plus.
  by replace (Demo.seconds_of_day a - Demo.seconds_of_day b
              + (Demo.seconds_of_day b - Demo.seconds_of_day c))%Z
    with (Demo.seconds_of_day a - Demo.seconds_of_day c)%Z by lia.
Qed.

End SampleHost.


Lemma remove_seconds_idempotent_witness :
  TimeLog.duration (Demo.punch "09:05:00" false (Some "Website"))
  = TimeLog.duration (Demo.punch "09:05:30" false (Some "Website"))
  /\ TimeLog.to_time (Demo.punch "09:05:00" false (Some "Website")) = None
  /\ WorkingTime.zero_seconds (Some "5") = Some "00".
Proof.
  destruct (remove_seconds_idempotent Demo.morning) as (_ & _ & Hlogs & Hshort).
  destruct (Hlogs 1%nat (Demo.punch "09:05:30" false (Some "Website"))
              (Demo.punch "09:05:00" false (Some "Website")))
    as (Hdur & _ & _ & _ & Hto); [reflexivity|reflexivity|].
  split_and!.
  - exact Hdur.
  - apply Hto. reflexivity.
  - apply Hshort; [discriminate|simpl; lia].
Defined.

Lemma set_to_times_keeps_all_but_to_time_witness :
  WorkingTime.set_to_times
    (WorkingTime.set_time_logs
       (alter (TimeLog.set_to_time (Some "23:59:00")) 0%nat
              (WorkingTime.time_logs Demo.morning))
       Demo.morning)
  = WorkingTime.set_to_times Demo.morning
  /\ (exists log',
        WorkingTime.time_logs (WorkingTime.set_to_times Demo.morning) !! 0%nat
        = Some log'
        /\ log' = TimeLog.set_to_time (TimeLog.to_time log')
                    (Demo.punch "09:00:00" false (Some "Website"))).
Proof.
  destruct (set_to_times_keeps_all_but_to_time Demo.morning)
    as (_ & _ & Hkeep & Hdrop).
  split.
  - apply Hdrop. simpl. lia.
  - apply Hkeep. reflexivity.
Defined.

Lemma totals_cover_all_durations_witness :
  0 <= WorkingTime.working_time Demo.morning_normalised
  /\ 0 <= WorkingTime.break_time Demo.morning_normalised.
Proof.
  destruct (@totals_cover_all_durations Demo.host Demo.morning)
    as (_ & Hpos & _).
  apply Hpos. vm_compute. reflexivity.
Defined.

Lemma totals_span_the_day_witness :
  WorkingTime.working_time (@WorkingTime.before_validate Demo.host Samples.full_day)
  + WorkingTime.break_time (@WorkingTime.before_validate Demo.host Samples.full_day)
  == @time_diff_in_seconds Demo.host "17:00:00" "09:00:00".
Proof.
  apply (@totals_span_the_day Demo.host Samples.full_day
           (Demo.punch "09:00:10" false (Some "Website"))
           (TimeLog.mk (Some "12:30:45") (Some "17:00:00") None false
              (Some "Website") (Some "100%") None None)).
  - apply demo_time_diff_additive.
  - reflexivity.
  - reflexivity.
  - repeat constructor.
  - reflexivity.
Defined.

Lemma attendance_counts_work_only_witness :
  exists n a,
    @WorkingTime.create_attendance Demo.host
      (@WorkingTime.before_validate Demo.host Demo.morning) Demo.empty_db
    = (Ok tt, set_attendances (fun _ => <[n := a]> ∅) Demo.empty_db)
    /\ Attendance.working_time a = "WT-0001"
    /\ (Attendance.status a = "Present"
        <-> 13455 < seconds_of false
                      (WorkingTime.time_logs
                         (@WorkingTime.before_validate Demo.host Demo.morning))).
Proof.
  destruct (@attendance_counts_work_only Demo.host Demo.morning Demo.empty_db
              demo_autoname_fresh (empty_db_no_attendance "EMP-1" "2023-05-02"))
    as (n & a & Hrun & Hname & Hstatus & _).
  by exists n, a.
Defined.

Lemma create_attendance_idempotent_witness :
  @WorkingTime.create_attendance Demo.host Demo.morning_normalised
    (@WorkingTime.create_attendance Demo.host Demo.morning_normalised
       Demo.empty_db).2
  = (Ok tt,
     (@WorkingTime.create_attendance Demo.host Demo.morning_normalised
        Demo.empty_db).2).
Proof.
  destruct (@create_attendance_idempotent Demo.host Demo.morning_normalised
              Demo.empty_db) as (_ & Hagain).
  apply Hagain. vm_compute. reflexivity.
Defined.

Lemma working_time_submit_frame_witness :
  timesheets (@WorkingTime.on_submit Demo.host Demo.morning_normalised
                Samples.old_db).2 !! "TS-0" = Some Samples.old_sheet
  /\ Timesheet.working_time Demo.morning_sheet = Some "WT-0001"
  /\ Timesheet.docstatus Demo.morning_sheet = draft.
Proof.
  destruct (@working_time_submit_frame Demo.host Demo.morning_normalised
              Samples.old_db "TS-0" Samples.old_sheet) as (Hkeep & _).
  destruct (@working_time_submit_frame Demo.host Demo.morning_normalised
              Demo.empty_db "T" Demo.morning_sheet) as (_ & Hnew).
  destruct Hnew as (Hdraft & _ & Hback & _);
    [reflexivity|vm_compute; reflexivity|].
  split_and!.
  - apply Hkeep. vm_compute. reflexivity.
  - exact Hback.
  - exact Hdraft.
Defined.

Lemma freelancer_submit_frame_witness :
  timesheets (@FreelancerTime.on_submit Demo.host Demo.freelancer
                Samples.old_db).2 !! "TS-0" = Some Samples.old_sheet
  /\ Timesheet.freelancer_time Demo.consulting_sheet = Some "FT-0001"
  /\ Timesheet.docstatus Demo.consulting_sheet = draft.
Proof.
  destruct (@freelancer_submit_frame Demo.host Demo.freelancer
              Samples.old_db "TS-0" Samples.old_sheet) as (_ & Hkeep & _).
  destruct (@freelancer_submit_frame Demo.host Demo.freelancer
              Demo.empty_db "T" Demo.consulting_sheet) as (_ & _ & Hnew).
  destruct Hnew as (Hdraft & Hback & _);
    [reflexivity|vm_compute; reflexivity|].
  split_and!.
  - apply Hkeep. vm_compute. reflexivity.
  - exact Hback.
  - exact Hdraft.
Defined.

Lemma create_timesheets_succeeds_iff_resolved_witness :
  freelancer_log_resolves (H := Demo.host) Demo.consulting.
Proof.
  destruct (@create_timesheets_succeeds_iff_resolved Demo.host
              Demo.morning_normalised Demo.freelancer Demo.empty_db
              demo_autoname_fresh) as (_ & Hft).
  apply Hft; [vm_compute; reflexivity|constructor|reflexivity].
Defined.

Lemma freelancer_cancel_undoes_submit_witness :
  FreelancerTime.on_cancel Demo.freelancer
    (@FreelancerTime.on_submit Demo.host Demo.freelancer Samples.old_db).2
  = (Ok tt, Samples.old_db).
Proof.
  destruct (@freelancer_cancel_undoes_submit Demo.host Demo.freelancer
              Samples.old_db) as (_ & _ & Hback).
  apply Hback. intros n ts Hlook. simpl in Hlook.
  apply lookup_insert_Some in Hlook as [[<- <-]|[_ Hlook]]; [reflexivity|].
  by rewrite lookup_empty in Hlook.
Defined.

Lemma cancel_idempotent_and_spares_working_time_witness :
  timesheets
    (FreelancerTime.on_cancel Demo.freelancer
       (@WorkingTime.on_submit Demo.host Demo.morning_normalised
          Demo.empty_db).2).2 !! "T"
  = Some Demo.morning_sheet.
Proof.
  destruct (@cancel_idempotent_and_spares_working_time Demo.host Demo.freelancer
              Demo.morning_normalised Demo.empty_db "T" Demo.morning_sheet)
    as (_ & Hspared).
  apply Hspared; [reflexivity|vm_compute; reflexivity].
Defined.

Lemma description_fails_only_with_tracker_witness :
  @get_description Demo.host (Some "acme.atlassian.net") None None = Ok "-".
Proof.
  destruct (@description_fails_only_with_tracker Demo.host
              (Some "acme.atlassian.net") None None) as (_ & _ & _ & Hplain).
  apply Hplain. reflexivity.
Defined.
